(** * Snakemake task provider: task discovery and its cache

    A shallow embedding of [src/extension.ts].  The extension registers a
    task provider with the editor; when asked for tasks it runs
    [snakemake --list] in the workspace root and turns every non-empty output
    line into a task.  The promise of that discovery is kept in a closure
    variable until the watched [Snakefile] changes, is created or is deleted.

    The embedding has four layers:
    - JavaScript strings: truthiness, [indexOf], [split] on [/\r{0,1}\n/];
    - the values the extension builds (tasks, settled promises of [exec]);
    - [async] code as a tree of host calls ([Prog]), run up to its next
      [await] by [runSync];
    - the extension's variables and the host's callbacks as events on a
      [World]. *)

From Stdlib Require Import ZArith String Ascii List Lia Bool.
From stdpp Require Import base option list strings.

(** ** JavaScript strings *)

Module JsString.

Definition LF : ascii := "010"%char.
Definition CR : ascii := "013"%char.

(** [ToBoolean] of a string: only the empty string is falsy. *)
Definition truthy (s : string) : bool :=
  match s with
  | EmptyString => false
  | String _ _ => true
  end.

(** [!x] for [x : string | undefined]. *)
Definition falsy (x : option string) : bool :=
  match x with
  | None => true
  | Some s => negb (truthy s)
  end.

(** [s.indexOf(pat)]: the least index at which [pat] occurs in [s], [-1]
    when there is none. *)
Fixpoint indexOfFrom (k : Z) (s pat : string) : Z :=
  if String.prefix pat s then k
  else match s with
       | EmptyString => (-1)%Z
       | String _ rest => indexOfFrom (k + 1) rest pat
       end.

Definition indexOf (s pat : string) : Z := indexOfFrom 0 s pat.

(** The regular expression [/\r{0,1}\n/] tried at the head of [s]: the
    number of characters it consumes.  [\r{0,1}] is greedy; when it takes a
    carriage return the next character must be a line feed, and giving the
    carriage return back cannot help, since [\n] does not match it. *)
Definition matchLineBreak (s : string) : option nat :=
  match s with
  | String c rest =>
      if bool_decide (c = CR) then
        match rest with
        | String c' _ => if bool_decide (c' = LF) then Some 2 else None
        | EmptyString => None
        end
      else if bool_decide (c = LF) then Some 1
      else None
  | EmptyString => None
  end.

(** [String.prototype.split] with that separator, no limit.  [piece] is the
    text since the end of the last separator, [skip] the characters of the
    current separator still to pass.  A match that consumes nothing is no
    separator. *)
Fixpoint splitFrom (skip : nat) (piece : string) (s : string) : list string :=
  match s with
  | EmptyString => [piece]
  | String c rest =>
      match skip with
      | S n => splitFrom n piece rest
      | O =>
          match matchLineBreak s with
          | Some (S n) => piece :: splitFrom n EmptyString rest
          | _ => splitFrom 0 (piece +:+ String c EmptyString) rest
          end
      end
  end.

Definition split (s : string) : list string := splitFrom 0 EmptyString s.

(** [s] has [pat] as a substring. *)
Definition contains (s pat : string) : Prop :=
  ∃ before after, s = before +:+ pat +:+ after.

End JsString.

Import JsString.

(** ** Tasks *)

Record SnakemakeTaskDefinition := {
  type : string;
  task : string;
  file : option string;
}.

Record ShellExecution := { commandLine : string }.

Inductive TaskGroup := Clean | Build | Rebuild | Test.

Record Task := {
  definition : SnakemakeTaskDefinition;
  name : string;
  source : string;
  execution : ShellExecution;
  group : option TaskGroup;
}.

(** [new vscode.Task(definition, name, source, execution)]: no group yet. *)
Definition newTask (definition : SnakemakeTaskDefinition) (name source : string)
    (execution : ShellExecution) : Task :=
  {| definition := definition; name := name; source := source;
     execution := execution; group := None |}.

(** [task.group = g]. *)
Definition setGroup (g : TaskGroup) (t : Task) : Task :=
  {| definition := definition t; name := name t; source := source t;
     execution := execution t; group := Some g |}.

Definition buildNames : list string := ["build"; "compile"; "watch"].

(** The loop of [isBuildTask] and [isTestTask] over a list of names. *)
Fixpoint anyIndexOf (names : list string) (name : string) : bool :=
  match names with
  | [] => false
  | n :: rest =>
      if negb (indexOf name n =? -1)%Z then true else anyIndexOf rest name
  end.

Definition isBuildTask (name : string) : bool := anyIndexOf buildNames name.

Definition testNames : list string := ["test"].

Definition isTestTask (name : string) : bool := anyIndexOf testNames name.

(** The body of the loop over the lines, for one non-empty line. *)
Definition lineTask (line : string) : Task :=
  let taskName := line in
  let kind := {| type := "snakemake"; task := taskName; file := None |} in
  let task :=
    newTask kind taskName "snakemake"
      {| commandLine := "snakemake " +:+ taskName |} in
  setGroup Build task.

(** [for (let line of lines)]: empty lines are passed over, every other
    line pushes its task to [result]. *)
Fixpoint forLines (lines : list string) (result : list Task) : list Task :=
  match lines with
  | [] => result
  | line :: rest =>
      if (String.length line =? 0)%nat then forLines rest result
      else forLines rest (result ++ [lineTask line])
  end.

(** The tasks [getSnakemakeTasks] returns when [exec] gave [stdout]. *)
Definition tasksOfStdout (stdout : string) : list Task :=
  let result := [] in
  if truthy stdout then forLines (split stdout) result else result.

(** ** The promise of [exec] *)

(** The [error] argument of the callback of [cp.exec]. *)
Inductive ExecException :=
| ExitCode (code : Z)
| Signal (signal : string)
| SpawnFailure (message : string).

Module Resolved.
Record t := mk { stdout : string; stderr : string }.
End Resolved.

Module Rejected.
Record t := mk { error : ExecException; stdout : string; stderr : string }.
End Rejected.

Inductive Settlement :=
| Unsettled
| ResolvedWith (value : Resolved.t)
| RejectedWith (reason : Rejected.t).

(** A promise is settled once: later calls of [resolve] and [reject] do
    nothing. *)
Definition resolve (value : Resolved.t) (p : Settlement) : Settlement :=
  match p with
  | Unsettled => ResolvedWith value
  | _ => p
  end.

Definition reject (reason : Rejected.t) (p : Settlement) : Settlement :=
  match p with
  | Unsettled => RejectedWith reason
  | _ => p
  end.

(** What [cp.exec] passes to its callback. *)
Record ExecReply := {
  replyError : option ExecException;
  replyStdout : string;
  replyStderr : string;
}.

(** The callback [exec] gives to [cp.exec], on the promise it settles. *)
Definition execCallback (r : ExecReply) (p : Settlement) : Settlement :=
  let p :=
    match replyError r with
    | Some error => reject (Rejected.mk error (replyStdout r) (replyStderr r)) p
    | None => p
    end in
  resolve (Resolved.mk (replyStdout r) (replyStderr r)) p.

(** ** Asynchronous code *)

Record ExecOptions := { cwd : string }.

(** The calls on the output channel. *)
Inductive ChannelOp :=
| appendLine (value : string)
| show (preserveFocus : bool).

(** The body of an [async] function as a tree of host calls.  [Throw] is an
    exception on its way out, [Hang] the [await] of a promise that nobody
    settles.  [FsExists] and [CpExec] stand for an [await]: the function is
    suspended there until the host calls back. *)
Inductive Prog (A : Type) : Type :=
| Ret (a : A)
| Throw (err : Rejected.t)
| Hang
| RootPath (k : option string → Prog A)
| GetOutputChannel (k : Prog A)
| OnChannel (op : ChannelOp) (k : Prog A)
| FsExists (file : string) (k : bool → Prog A)
| CpExec (command : string) (options : ExecOptions) (k : ExecReply → Prog A).

Arguments Ret {A} a.
Arguments Throw {A} err.
Arguments Hang {A}.
Arguments RootPath {A} k.
Arguments GetOutputChannel {A} k.
Arguments OnChannel {A} op k.
Arguments FsExists {A} file k.
Arguments CpExec {A} command options k.

Fixpoint bind {A B : Type} (p : Prog A) (f : A → Prog B) : Prog B :=
  match p with
  | Ret a => f a
  | Throw err => Throw err
  | Hang => Hang
  | RootPath k => RootPath (λ r, bind (k r) f)
  | GetOutputChannel k => GetOutputChannel (bind k f)
  | OnChannel op k => OnChannel op (bind k f)
  | FsExists file k => FsExists file (λ b, bind (k b) f)
  | CpExec command options k => CpExec command options (λ r, bind (k r) f)
  end.

#[export] Instance prog_ret : MRet Prog := λ A a, Ret a.
#[export] Instance prog_bind : MBind Prog := λ A B f p, bind p f.

(** [try { body } catch (err) { handler }]. *)
Fixpoint tryCatch {A : Type} (body : Prog A) (handler : Rejected.t → Prog A) : Prog A :=
  match body with
  | Ret a => Ret a
  | Throw err => handler err
  | Hang => Hang
  | RootPath k => RootPath (λ r, tryCatch (k r) handler)
  | GetOutputChannel k => GetOutputChannel (tryCatch k handler)
  | OnChannel op k => OnChannel op (tryCatch k handler)
  | FsExists file k => FsExists file (λ b, tryCatch (k b) handler)
  | CpExec command options k =>
      CpExec command options (λ r, tryCatch (k r) handler)
  end.

(** [await p] for the promise of [exec]. *)
Definition await (p : Settlement) : Prog Resolved.t :=
  match p with
  | ResolvedWith value => Ret value
  | RejectedWith reason => Throw reason
  | Unsettled => Hang
  end.

(** [exists(file)]: resolves with what [fs.exists] reports, never rejects. *)
Definition exists_ (file : string) : Prog bool := FsExists file Ret.

(** [exec(command, options)]. *)
Definition exec (command : string) (options : ExecOptions) : Prog Resolved.t :=
  CpExec command options (λ r, await (execCallback r Unsettled)).

Definition workspaceRootPath : Prog (option string) := RootPath Ret.

(** [getOutputChannel()], and a call on the channel it returned. *)
Definition outputChannel : Prog unit := GetOutputChannel (Ret ()).

Definition channel (op : ChannelOp) : Prog unit := OnChannel op (Ret ()).

(** ** The host *)

Record OutputChannel := {
  channelName : string;
  channelOps : list ChannelOp;
}.

(** What the extension reads from the host and what it does to it:
    [vscode.workspace.rootPath], the module variable [_channel], the calls of
    [fs.exists] and the child processes started by [cp.exec], oldest first. *)
Record Host := {
  rootPath : option string;
  _channel : option OutputChannel;
  existsCalls : list string;
  children : list (string * ExecOptions);
}.

Definition getOutputChannel (h : Host) : Host :=
  match _channel h with
  | Some _ => h
  | None =>
      {| rootPath := rootPath h;
         _channel := Some {| channelName := "Snakemake Auto Detection"; channelOps := [] |};
         existsCalls := existsCalls h;
         children := children h |}
  end.

Definition onChannel (op : ChannelOp) (h : Host) : Host :=
  {| rootPath := rootPath h;
     _channel :=
       match _channel h with
       | Some c => Some {| channelName := channelName c; channelOps := channelOps c ++ [op] |}
       | None => None
       end;
     existsCalls := existsCalls h;
     children := children h |}.

Definition fsExists (file : string) (h : Host) : Host :=
  {| rootPath := rootPath h;
     _channel := _channel h;
     existsCalls := existsCalls h ++ [file];
     children := children h |}.

Definition cpExec (command : string) (options : ExecOptions) (h : Host) : Host :=
  {| rootPath := rootPath h;
     _channel := _channel h;
     existsCalls := existsCalls h;
     children := children h ++ [(command, options)] |}.

Definition setRootPath (r : option string) (h : Host) : Host :=
  {| rootPath := r;
     _channel := _channel h;
     existsCalls := existsCalls h;
     children := children h |}.

(** What the output channel shows: nothing while it does not exist. *)
Definition channelLog (h : Host) : list ChannelOp :=
  match _channel h with
  | Some c => channelOps c
  | None => []
  end.

(** The state of the promise an [async] function returned. *)
Inductive PromiseState (A : Type) : Type :=
| Fulfilled (a : A)
| Failed (err : Rejected.t)
| Stuck
| AwaitingExists (k : bool → Prog A)
| AwaitingExec (k : ExecReply → Prog A).

Arguments Fulfilled {A} a.
Arguments Failed {A} err.
Arguments Stuck {A}.
Arguments AwaitingExists {A} k.
Arguments AwaitingExec {A} k.

(** Run the code up to its next [await], or to its end. *)
Fixpoint runSync {A : Type} (p : Prog A) (h : Host) : PromiseState A * Host :=
  match p with
  | Ret a => (Fulfilled a, h)
  | Throw err => (Failed err, h)
  | Hang => (Stuck, h)
  | RootPath k => runSync (k (rootPath h)) h
  | GetOutputChannel k => runSync k (getOutputChannel h)
  | OnChannel op k => runSync k (onChannel op h)
  | FsExists file k => (AwaitingExists k, fsExists file h)
  | CpExec command options k => (AwaitingExec k, cpExec command options h)
  end.

(** Run the code to its end in a host where [fs.exists] reports
    [fileExists] and the child process ends with [reply]. *)
Fixpoint runToEnd {A : Type} (fileExists : bool) (reply : ExecReply)
    (p : Prog A) (h : Host) : PromiseState A * Host :=
  match p with
  | Ret a => (Fulfilled a, h)
  | Throw err => (Failed err, h)
  | Hang => (Stuck, h)
  | RootPath k => runToEnd fileExists reply (k (rootPath h)) h
  | GetOutputChannel k => runToEnd fileExists reply k (getOutputChannel h)
  | OnChannel op k => runToEnd fileExists reply k (onChannel op h)
  | FsExists file k => runToEnd fileExists reply (k fileExists) (fsExists file h)
  | CpExec command options k =>
      runToEnd fileExists reply (k reply) (cpExec command options h)
  end.

(** ** The extension *)

Inductive FsEventKind := Changed | Created | Deleted.

(** The one listener the extension subscribes:
    [() => snakemakePromise = undefined]. *)
Inductive Listener := ClearSnakemakePromise.

Record FileSystemWatcher := {
  globPattern : string;
  onDidChange : list Listener;
  onDidCreate : list Listener;
  onDidDelete : list Listener;
}.

Definition listeners (kind : FsEventKind) (fw : FileSystemWatcher) : list Listener :=
  match kind with
  | Changed => onDidChange fw
  | Created => onDidCreate fw
  | Deleted => onDidDelete fw
  end.

(** The host with the extension's variables: the watchers and task
    providers registered, the module variable [taskProvider], the variable
    [snakemakePromise] of [activate], and the promises [getSnakemakeTasks]
    has returned, each named by its position. *)
Record World := {
  host : Host;
  watchers : list FileSystemWatcher;
  providers : list string;
  taskProvider : option nat;
  snakemakePromise : option nat;
  promises : list (PromiseState (list Task));
}.

Definition setHost (h : Host) (w : World) : World :=
  {| host := h; watchers := watchers w; providers := providers w;
     taskProvider := taskProvider w; snakemakePromise := snakemakePromise w;
     promises := promises w |}.

Definition setSnakemakePromise (p : option nat) (w : World) : World :=
  {| host := host w; watchers := watchers w; providers := providers w;
     taskProvider := taskProvider w; snakemakePromise := p;
     promises := promises w |}.

Definition setPromises (ps : list (PromiseState (list Task))) (w : World) : World :=
  {| host := host w; watchers := watchers w; providers := providers w;
     taskProvider := taskProvider w; snakemakePromise := snakemakePromise w;
     promises := ps |}.

Definition runListener (l : Listener) (w : World) : World :=
  match l with
  | ClearSnakemakePromise => setSnakemakePromise None w
  end.

(** What the host sends to the extension. *)
Inductive Event :=
| ProvideTasks
| FsEvent (kind : FsEventKind)
| ExistsCallback (p : nat) (value : bool)
| ExecCallback (p : nat) (reply : ExecReply)
| WorkspaceRoot (r : option string).

Section Extension.

(** [path.join] of Node, which this development leaves open. *)
Variable join : string → string → string.

Definition getSnakemakeTasks : Prog (list Task) :=
  workspaceRoot ← workspaceRootPath;
  let emptyTasks : list Task := [] in
  match workspaceRoot with
  | None => mret emptyTasks
  | Some workspaceRoot =>
      if negb (truthy workspaceRoot) then mret emptyTasks else
      let snakemakeFile := join workspaceRoot "Snakefile" in
      found ← exists_ snakemakeFile;
      if negb found then mret emptyTasks else
      let commandLine := "snakemake --list" in
      tryCatch
        (r ← exec commandLine {| cwd := workspaceRoot |};
         let stdout := Resolved.stdout r in
         let stderr := Resolved.stderr r in
         (if truthy stderr && (0 <? String.length stderr)%nat
          then outputChannel;; channel (appendLine stderr);;
               outputChannel;; channel (show true)
          else mret ());;
         mret (tasksOfStdout stdout))
        (λ err,
          outputChannel;;
          (if truthy (Rejected.stderr err)
           then channel (appendLine (Rejected.stderr err))
           else mret ());;
          (if truthy (Rejected.stdout err)
           then channel (appendLine (Rejected.stdout err))
           else mret ());;
          channel (appendLine "Auto detecting Snakemake tasts failed.");;
          channel (show true);;
          mret emptyTasks)
  end.

(** [snakemakePromise = getSnakemakeTasks()]: the call runs up to its first
    [await] and the new promise is stored at once. *)
Definition startDiscovery (w : World) : World :=
  let '(st, h) := runSync getSnakemakeTasks (host w) in
  {| host := h; watchers := watchers w; providers := providers w;
     taskProvider := taskProvider w;
     snakemakePromise := Some (length (promises w));
     promises := promises w ++ [st] |}.

(** [provideTasks] of the registered provider: the promise it returns and
    the world it leaves. *)
Definition provideTasks (w : World) : option nat * World :=
  let w :=
    match snakemakePromise w with
    | None => startDiscovery w
    | Some _ => w
    end in
  (snakemakePromise w, w).

(** [resolveTask] of the registered provider. *)
Definition resolveTask (_task : Task) : option Task := None.

Definition activate (w : World) : World :=
  let workspaceRoot := rootPath (host w) in
  match workspaceRoot with
  | None => w
  | Some workspaceRoot =>
      if negb (truthy workspaceRoot) then w else
      let pattern := join workspaceRoot "Snakefile" in
      let fileWatcher :=
        {| globPattern := pattern;
           onDidChange := [ClearSnakemakePromise];
           onDidCreate := [ClearSnakemakePromise];
           onDidDelete := [ClearSnakemakePromise] |} in
      {| host := host w;
         watchers := watchers w ++ [fileWatcher];
         providers := providers w ++ ["snakemake"];
         taskProvider := Some (length (providers w));
         snakemakePromise := None;
         promises := promises w |}
  end.

(** The promise [p] goes on from its [await] with what the host called
    back: a callback for a promise that does not wait for it does nothing. *)
Definition resumeExists (p : nat) (value : bool) (w : World) : World :=
  match promises w !! p with
  | Some (AwaitingExists k) =>
      let '(st, h) := runSync (k value) (host w) in
      setPromises (<[p := st]> (promises w)) (setHost h w)
  | _ => w
  end.

Definition resumeExec (p : nat) (reply : ExecReply) (w : World) : World :=
  match promises w !! p with
  | Some (AwaitingExec k) =>
      let '(st, h) := runSync (k reply) (host w) in
      setPromises (<[p := st]> (promises w)) (setHost h w)
  | _ => w
  end.

(** A notification of the watched path runs the listeners of its kind. *)
Definition fsEvent (kind : FsEventKind) (w : World) : World :=
  foldl (λ w l, runListener l w) w (concat (map (listeners kind) (watchers w))).

Definition handle (e : Event) (w : World) : World :=
  match e with
  | ProvideTasks =>
      match taskProvider w with
      | Some _ => snd (provideTasks w)
      | None => w
      end
  | FsEvent kind => fsEvent kind w
  | ExistsCallback p value => resumeExists p value w
  | ExecCallback p reply => resumeExec p reply w
  | WorkspaceRoot r => setHost (setRootPath r (host w)) w
  end.

Definition run (events : list Event) (w : World) : World :=
  foldl (λ w e, handle e w) w events.

(** One whole discovery in a host where the file check reports
    [fileExists] and the child process ends with [reply]. *)
Definition discover (fileExists : bool) (reply : ExecReply) (h : Host)
    : PromiseState (list Task) * Host :=
  runToEnd fileExists reply getSnakemakeTasks h.

End Extension.

(** ** Lines of text, to state what [split] does *)

(** How a line ends: a bare line feed, or a carriage return and a line
    feed. *)
Inductive Eol := Bare | CrLf.

Definition eolText (e : Eol) : string :=
  match e with
  | Bare => String LF EmptyString
  | CrLf => String CR (String LF EmptyString)
  end.

Fixpoint noLineFeed (s : string) : bool :=
  match s with
  | EmptyString => true
  | String c rest => negb (bool_decide (c = LF)) && noLineFeed rest
  end.

Fixpoint endsWithCR (s : string) : bool :=
  match s with
  | EmptyString => false
  | String c EmptyString => bool_decide (c = CR)
  | String _ rest => endsWithCR rest
  end.

(** The text of a line that its line ending follows: no line feed in it,
    and no carriage return at its end (that one belongs to the ending). *)
Definition wholeLine (s : string) : bool := noLineFeed s && negb (endsWithCR s).

(** The text of the lines [ls], each with its ending, and then [last]. *)
Fixpoint unlines (ls : list (string * Eol)) (last : string) : string :=
  match ls with
  | [] => last
  | (l, e) :: rest => l +:+ eolText e +:+ unlines rest last
  end.

Definition nonEmpty (line : string) : bool := negb (String.length line =? 0)%nat.

(** ** Vocabulary of the statements *)

(** The host after a successful child process: [stderr] is shown when it is
    not empty. *)
Definition afterSuccess (stderr : string) (h : Host) : Host :=
  if truthy stderr
  then onChannel (show true) (getOutputChannel (onChannel (appendLine stderr) (getOutputChannel h)))
  else h.

(** The host after a failed child process. *)
Definition afterFailure (stdout stderr : string) (h : Host) : Host :=
  let h := getOutputChannel h in
  let h := if truthy stderr then onChannel (appendLine stderr) h else h in
  let h := if truthy stdout then onChannel (appendLine stdout) h else h in
  onChannel (show true)
    (onChannel (appendLine "Auto detecting Snakemake tasts failed.") h).

(** A continuation after [await exec(...)]: it ends the discovery with a
    list of tasks and starts no process. *)
Definition execCont (root : string) (k : ExecReply → Prog (list Task)) : Prop :=
  ∀ reply h,
    runSync (k reply) h =
      match replyError reply with
      | None =>
          (Fulfilled (tasksOfStdout (replyStdout reply)),
           afterSuccess (replyStderr reply) h)
      | Some _ =>
          (Fulfilled [], afterFailure (replyStdout reply) (replyStderr reply) h)
      end.

(** A continuation after [await exists(...)]: without the file it ends the
    discovery, with the file it starts [snakemake --list] in [root]. *)
Definition existsCont (root : string) (k : bool → Prog (list Task)) : Prop :=
  (∀ h, runSync (k false) h = (Fulfilled [], h)) ∧
  (∀ h, ∃ k', runSync (k true) h =
              (AwaitingExec k', cpExec "snakemake --list" {| cwd := root |} h)
            ∧ execCont root k').

(** The states a promise of [getSnakemakeTasks] goes through. *)
Definition passState (st : PromiseState (list Task)) : Prop :=
  match st with
  | Fulfilled _ => True
  | AwaitingExists k => ∃ root, existsCont root k
  | AwaitingExec k => ∃ root, execCont root k
  | Failed _ | Stuck => False
  end.

(** Every event but a notification of the watcher. *)
Definition quiet (e : Event) : bool :=
  match e with
  | FsEvent _ => false
  | _ => true
  end.

(** A discovery that has started and not ended. *)
Definition inFlight (st : PromiseState (list Task)) : bool :=
  match st with
  | AwaitingExists _ | AwaitingExec _ => true
  | _ => false
  end.

Definition awaitsExists (st : PromiseState (list Task)) : bool :=
  match st with
  | AwaitingExists _ => true
  | _ => false
  end.

Definition awaitsExec (st : PromiseState (list Task)) : bool :=
  match st with
  | AwaitingExec _ => true
  | _ => false
  end.

Fixpoint countWhere {A : Type} (P : A → bool) (l : list A) : nat :=
  match l with
  | [] => 0
  | x :: rest => (if P x then 1 else 0) + countWhere P rest
  end.

(** The child processes started so far, and those that may still start
    without a notification of the watcher: one for each discovery that waits
    for the file check, one more while nothing is cached. *)
Definition invocationBudget (w : World) : nat :=
  length (children (host w)) + countWhere awaitsExists (promises w)
  + match snakemakePromise w with Some _ => 0 | None => 1 end.

(** [path.join] on a POSIX path that needs no normalising. *)
Definition posixJoin (dir name : string) : string := dir +:+ "/" +:+ name.

(** A host freshly started on the workspace [root]. *)
Definition hostAt (root : option string) : Host :=
  {| rootPath := root; _channel := None; existsCalls := []; children := [] |}.

Definition worldAt (root : option string) : World :=
  {| host := hostAt root; watchers := []; providers := []; taskProvider := None;
     snakemakePromise := None; promises := [] |}.

(** What [cp.exec] calls back with after a child process that succeeded,
    and after one that failed. *)
Definition succeeded (stdout stderr : string) : ExecReply :=
  {| replyError := None; replyStdout := stdout; replyStderr := stderr |}.

Definition failed (error : ExecException) (stdout stderr : string) : ExecReply :=
  {| replyError := Some error; replyStdout := stdout; replyStderr := stderr |}.

(** The classification by name that the specification describes: [Build]
    for a name with a build word in it, else [Test] for a name with a test
    word in it, else none. *)
Definition specClassification (name : string) : option TaskGroup :=
  if isBuildTask name then Some Build
  else if isTestTask name then Some Test
  else None.

(** The lines the specification says a failed discovery writes: the two
    captured streams, whatever is in them, and the diagnostic. *)
Definition specFailureLog (stdout stderr : string) : list ChannelOp :=
  [appendLine stderr; appendLine stdout;
   appendLine "Auto detecting Snakemake tasts failed."; show true].

(** The output of the tool in the example of the specification. *)
Definition exampleStdout : string :=
  unlines [("build_all", Bare); ("run_tests", Bare); ("cleanup", Bare)] "".

(** ** Vocabulary of the further properties *)

(** The number of line feeds in a text. *)
Fixpoint countLF (s : string) : nat :=
  match s with
  | EmptyString => 0
  | String c rest => (if bool_decide (c = LF) then 1 else 0) + countLF rest
  end.

(** The text without its first [n] characters. *)
Fixpoint dropChars (n : nat) (s : string) : string :=
  match n, s with
  | S n, String _ rest => dropChars n rest
  | _, _ => s
  end.

(** The output channel of [h'] is that of [h] with more written to it, or
    the channel of the extension, new. *)
Definition channelGrows (h h' : Host) : Prop :=
  match _channel h with
  | Some c =>
      ∃ ops, _channel h' =
               Some {| channelName := channelName c; channelOps := channelOps c ++ ops |}
  | None =>
      _channel h' = None ∨
      ∃ ops, _channel h' =
               Some {| channelName := "Snakemake Auto Detection"; channelOps := ops |}
  end.

(** A file check of the extension: for the [Snakefile] of some workspace
    root. *)
Definition snakefileCheck (join : string → string → string) (file : string) : Prop :=
  ∃ root, truthy root = true ∧ file = join root "Snakefile".

(** A child process of the extension: [snakemake --list] in a workspace
    root whose [Snakefile] has been checked for. *)
Definition listingChild (join : string → string → string) (h : Host)
    (child : string * ExecOptions) : Prop :=
  child.1 = "snakemake --list" ∧ truthy (cwd child.2) = true ∧
  join (cwd child.2) "Snakefile" ∈ existsCalls h.

(** A promise of [getSnakemakeTasks] in the host [h]: one that waits for
    the file check has made that check. *)
Definition checkedState (join : string → string → string) (h : Host)
    (st : PromiseState (list Task)) : Prop :=
  match st with
  | Fulfilled _ => True
  | AwaitingExists k =>
      ∃ root, truthy root = true ∧ join root "Snakefile" ∈ existsCalls h ∧
              existsCont root k
  | AwaitingExec k => ∃ root, execCont root k
  | Failed _ | Stuck => False
  end.

(** What the extension keeps true of the host. *)
Definition hostInvariant (join : string → string → string) (w : World) : Prop :=
  Forall (checkedState join (host w)) (promises w) ∧
  Forall (listingChild join (host w)) (children (host w)) ∧
  Forall (snakefileCheck join) (existsCalls (host w)) ∧
  length (children (host w)) + countWhere awaitsExists (promises w)
    ≤ length (existsCalls (host w)) ∧
  length (existsCalls (host w)) ≤ length (promises w).

(** The variable [snakemakePromise] holds nothing or a promise that there
    is. *)
Definition slotValid (w : World) : Prop :=
  ∀ p, snakemakePromise w = Some p → p < length (promises w).

(** Every event but a request for the tasks. *)
Definition notRequest (e : Event) : bool :=
  match e with
  | ProvideTasks => false
  | _ => true
  end.

(** The watcher [activate] makes for a pattern. *)
Definition snakefileWatcher (pattern : string) : FileSystemWatcher :=
  {| globPattern := pattern;
     onDidChange := [ClearSnakemakePromise];
     onDidCreate := [ClearSnakemakePromise];
     onDidDelete := [ClearSnakemakePromise] |}.


(** The notifications among some events. *)
Definition notifications (events : list Event) : nat :=
  countWhere (λ e, negb (quiet e)) events.

(** ** Facts about strings *)

#[local] Arguments append (s1 s2)%_string_scope : simpl nomatch.

Lemma append_empty_r (s : string) : s +:+ EmptyString = s.
Proof. induction s as [|c s IH]; simpl; [done | by rewrite IH]. Qed.

Lemma append_assoc (a b c : string) : (a +:+ b) +:+ c = a +:+ (b +:+ c).
Proof. induction a as [|x a IH]; simpl; [done | by rewrite IH]. Qed.

Lemma append_empty_inv (a b : string) :
  a +:+ b = EmptyString → a = EmptyString ∧ b = EmptyString.
Proof. destruct a; simpl; [done | discriminate]. Qed.

Lemma prefix_true (p s : string) :
  String.prefix p s = true ↔ ∃ rest, s = p +:+ rest.
Proof.
  revert s. induction p as [|c p IH]; intros s.
  - destruct s; simpl; (split; [intros _; by eexists | done]).
  - destruct s as [|d s]; simpl.
    + split; [discriminate | intros [rest Hrest]; discriminate].
    + destruct (ascii_dec c d) as [->|Hne].
      * rewrite IH. split; intros [rest Hrest]; exists rest; congruence.
      * split; [discriminate | intros [rest Hrest]; congruence].
Qed.

Lemma contains_here (s pat : string) :
  String.prefix pat s = true → contains s pat.
Proof.
  intros [rest ->]%prefix_true. by exists EmptyString, rest.
Qed.

Lemma contains_later (c : ascii) (s pat : string) :
  String.prefix pat (String c s) = false →
  contains (String c s) pat ↔ contains s pat.
Proof.
  intros Hno. split.
  - intros (before & after & Heq). destruct before as [|d before].
    + exfalso. simpl in Heq.
      assert (String.prefix pat (String c s) = true) as Hyes
        by (apply prefix_true; by exists after).
      congruence.
    + simpl in Heq. injection Heq as _ ->. by exists before, after.
  - intros (before & after & ->). by exists (String c before), after.
Qed.

Lemma indexOfFrom_unfold (k : Z) (s pat : string) :
  indexOfFrom k s pat =
    if String.prefix pat s then k
    else match s with
         | EmptyString => (-1)%Z
         | String _ rest => indexOfFrom (k + 1) rest pat
         end.
Proof. by destruct s. Qed.

Lemma indexOfFrom_ge (k : Z) (s pat : string) :
  contains s pat → (k ≤ indexOfFrom k s pat)%Z.
Proof.
  revert k. induction s as [|c s IH]; intros k Hc; rewrite indexOfFrom_unfold.
  - destruct Hc as (before & after & Heq). symmetry in Heq.
    apply append_empty_inv in Heq as [_ Heq].
    apply append_empty_inv in Heq as [-> _]. simpl. lia.
  - destruct (String.prefix pat (String c s)) eqn:Hp; [lia|].
    apply (contains_later _ _ _ Hp) in Hc. specialize (IH (k + 1)%Z Hc). lia.
Qed.

Lemma indexOfFrom_contains (k : Z) (s pat : string) :
  indexOfFrom k s pat ≠ (-1)%Z → contains s pat.
Proof.
  revert k. induction s as [|c s IH]; intros k; rewrite indexOfFrom_unfold.
  - destruct (String.prefix pat EmptyString) eqn:Hp; [|done].
    intros _. by apply contains_here.
  - destruct (String.prefix pat (String c s)) eqn:Hp.
    + intros _. by apply contains_here.
    + intros Hfound%IH. by apply contains_later.
Qed.

(** [indexOf] finds a substring exactly when there is one. *)
Lemma indexOf_found (s pat : string) :
  indexOf s pat ≠ (-1)%Z ↔ contains s pat.
Proof.
  unfold indexOf. split.
  - apply indexOfFrom_contains.
  - intros Hc%(indexOfFrom_ge 0). lia.
Qed.

Lemma anyIndexOf_true (names : list string) (name : string) :
  anyIndexOf names name = true ↔ ∃ n, n ∈ names ∧ contains name n.
Proof.
  induction names as [|n names IH]; simpl.
  - split; [discriminate | intros (n & Hn & _); by apply elem_of_nil in Hn].
  - destruct (indexOf name n =? -1)%Z eqn:Hi; simpl.
    + apply Z.eqb_eq in Hi. rewrite IH. split.
      * intros (m & Hm & Hc). exists m. split; [by right | done].
      * intros (m & Hm & Hc). apply elem_of_cons in Hm as [->|Hm].
        -- apply indexOf_found in Hc. congruence.
        -- by exists m.
    + apply Z.eqb_neq, indexOf_found in Hi. split; [|done].
      intros _. exists n. split; [by left | done].
Qed.

(** [isBuildTask] decides whether the name has one of the three build
    words in it, in the case they are written in. *)
Lemma isBuildTask_true (name : string) :
  isBuildTask name = true ↔
    contains name "build" ∨ contains name "compile" ∨ contains name "watch".
Proof.
  unfold isBuildTask, buildNames. rewrite anyIndexOf_true. split.
  - intros (n & Hn & Hc). rewrite !elem_of_cons, elem_of_nil in Hn.
    destruct Hn as [->|[->|[->|[]]]]; auto.
  - intros [Hc|[Hc|Hc]]; eexists; (split; [|exact Hc]); rewrite !elem_of_cons; auto.
Qed.

Lemma isTestTask_true (name : string) :
  isTestTask name = true ↔ contains name "test".
Proof.
  unfold isTestTask, testNames. rewrite anyIndexOf_true. split.
  - intros (n & Hn & Hc). rewrite !elem_of_cons, elem_of_nil in Hn.
    by destruct Hn as [->|[]].
  - intros Hc. eexists; (split; [|exact Hc]); rewrite !elem_of_cons; auto.
Qed.

(** ** Facts about [split] *)

Lemma wholeLine_tail (c : ascii) (l : string) :
  wholeLine (String c l) = true → wholeLine l = true.
Proof.
  unfold wholeLine. simpl. destruct l as [|d l]; [done|].
  intros [[_ ?]%andb_prop ?]%andb_prop. by apply andb_true_intro.
Qed.

Lemma matchLineBreak_inside (c : ascii) (l rest : string) (e : Eol) :
  wholeLine (String c l) = true →
  matchLineBreak (String c (l +:+ eolText e +:+ rest)) = None.
Proof.
  unfold wholeLine. simpl.
  intros [[Hc Hl]%andb_prop Hcr]%andb_prop.
  apply negb_true_iff in Hc as ->. destruct (bool_decide (c = CR)) eqn:Hr; [|done].
  destruct l as [|d l]; simpl in *.
  - done.
  - apply andb_prop in Hl as [Hd _]. by apply negb_true_iff in Hd as ->.
Qed.

(** A line and its ending are one piece and one separator. *)
Lemma splitFrom_line (piece l rest : string) (e : Eol) :
  wholeLine l = true →
  splitFrom 0 piece (l +:+ eolText e +:+ rest) =
    (piece +:+ l) :: splitFrom 0 EmptyString rest.
Proof.
  revert piece. induction l as [|c l IH]; intros piece Hl.
  - rewrite append_empty_r. by destruct e.
  - change (String c l +:+ eolText e +:+ rest)
      with (String c (l +:+ eolText e +:+ rest)).
    cbn [splitFrom]. rewrite matchLineBreak_inside by done.
    rewrite IH by (by eapply wholeLine_tail).
    by rewrite append_assoc.
Qed.

Lemma matchLineBreak_last (c : ascii) (l : string) :
  noLineFeed (String c l) = true → matchLineBreak (String c l) = None.
Proof.
  simpl. intros [Hc Hl]%andb_prop.
  apply negb_true_iff in Hc as ->. destruct (bool_decide (c = CR)); [|done].
  destruct l as [|d l]; [done|]. simpl in Hl.
  apply andb_prop in Hl as [Hd _]. by apply negb_true_iff in Hd as ->.
Qed.

(** Text without a line feed is one piece. *)
Lemma splitFrom_last (piece l : string) :
  noLineFeed l = true → splitFrom 0 piece l = [piece +:+ l].
Proof.
  revert piece. induction l as [|c l IH]; intros piece Hl.
  - by rewrite append_empty_r.
  - cbn [splitFrom]. rewrite matchLineBreak_last by done.
    simpl in Hl. apply andb_prop in Hl as [_ Hl].
    rewrite IH by done. by rewrite append_assoc.
Qed.

(** [split] gives back the lines of a text, and what follows the last
    line ending as one more piece. *)
Lemma split_unlines (ls : list (string * Eol)) (last : string) :
  forallb wholeLine (map fst ls) = true →
  noLineFeed last = true →
  split (unlines ls last) = map fst ls ++ [last].
Proof.
  unfold split. intros Hls Hlast.
  induction ls as [|[l e] ls IH]; simpl in *.
  - by rewrite splitFrom_last.
  - apply andb_prop in Hls as [Hl Hls].
    rewrite splitFrom_line by done. by rewrite IH.
Qed.

Lemma forLines_filter (lines : list string) (result : list Task) :
  forLines lines result = result ++ map lineTask (filter (λ l, nonEmpty l = true) lines).
Proof.
  revert result. induction lines as [|line lines IH]; intros result; simpl.
  - by rewrite app_nil_r.
  - unfold nonEmpty at 1.
    destruct (String.length line =? 0)%nat eqn:Hlen; simpl.
    + rewrite IH. rewrite filter_cons_False; [done|].
      unfold nonEmpty. by rewrite Hlen.
    + rewrite IH. rewrite filter_cons_True by (unfold nonEmpty; by rewrite Hlen).
      by rewrite <- app_assoc.
Qed.

(** The tasks are those of the non-empty pieces of [split], in order. *)
Lemma tasksOfStdout_lines (stdout : string) :
  tasksOfStdout stdout =
    map lineTask (filter (λ l, nonEmpty l = true) (split stdout)).
Proof.
  unfold tasksOfStdout. destruct stdout as [|c s]; [done|].
  cbn [truthy]. by rewrite forLines_filter.
Qed.

Lemma name_lineTask (lines : list string) : map name (map lineTask lines) = lines.
Proof. induction lines as [|l lines IH]; simpl; [done | by rewrite IH]. Qed.

(** ** One discovery *)

(** [exec] settles its promise whatever the child process did: it rejects
    when there is an error and resolves when there is none. *)
Lemma execCallback_settles (r : ExecReply) :
  execCallback r Unsettled =
    match replyError r with
    | Some error => RejectedWith (Rejected.mk error (replyStdout r) (replyStderr r))
    | None => ResolvedWith (Resolved.mk (replyStdout r) (replyStderr r))
    end.
Proof. unfold execCallback. by destruct (replyError r). Qed.

Section Discovery.

Variable join : string → string → string.

Lemma truthy_length (s : string) :
  truthy s && (0 <? String.length s)%nat = truthy s.
Proof. by destruct s. Qed.

(** A discovery in a workspace with a root, in all its cases. *)
Lemma discover_root (fileExists : bool) (reply : ExecReply) (h : Host) (root : string) :
  rootPath h = Some root → truthy root = true →
  discover join fileExists reply h =
    if fileExists
    then
      let h := cpExec "snakemake --list" {| cwd := root |}
                 (fsExists (join root "Snakefile") h) in
      match replyError reply with
      | None =>
          (Fulfilled (tasksOfStdout (replyStdout reply)),
           afterSuccess (replyStderr reply) h)
      | Some _ =>
          (Fulfilled [], afterFailure (replyStdout reply) (replyStderr reply) h)
      end
    else (Fulfilled [], fsExists (join root "Snakefile") h).
Proof.
  intros Hroot Htruthy. unfold discover, getSnakemakeTasks.
  cbn. rewrite Hroot. cbn. rewrite Htruthy. cbn.
  destruct fileExists; cbn; [|done].
  rewrite execCallback_settles.
  destruct reply as [[e|] out err]; cbn.
  - unfold afterFailure. cbn. by destruct err, out.
  - unfold afterSuccess. rewrite truthy_length. by destruct err.
Qed.

Lemma discover_no_root (fileExists : bool) (reply : ExecReply) (h : Host) :
  falsy (rootPath h) = true →
  discover join fileExists reply h = (Fulfilled [], h).
Proof.
  intros Hroot. unfold discover, getSnakemakeTasks. cbn.
  destruct (rootPath h) as [root|]; cbn in *; [|done].
  by rewrite Hroot.
Qed.

(** A discovery always ends with a list of tasks: it is never rejected and
    never left waiting. *)
Lemma discover_fulfilled (fileExists : bool) (reply : ExecReply) (h : Host) :
  ∃ tasks, fst (discover join fileExists reply h) = Fulfilled tasks.
Proof.
  destruct (falsy (rootPath h)) eqn:Hroot.
  - rewrite discover_no_root by done. by eexists.
  - destruct (rootPath h) as [root|] eqn:Hr; [|done].
    apply negb_false_iff in Hroot.
    rewrite (discover_root _ _ _ root) by done.
    destruct fileExists; [|by eexists].
    destruct (replyError reply); by eexists.
Qed.

End Discovery.

(** ** The steps of one discovery *)

Section Steps.

Variable join : string → string → string.

Lemma getSnakemakeTasks_no_root (h : Host) :
  falsy (rootPath h) = true →
  runSync (getSnakemakeTasks join) h = (Fulfilled [], h).
Proof.
  intros Hroot. unfold getSnakemakeTasks. cbn.
  destruct (rootPath h) as [root|]; cbn in *; [|done].
  by rewrite Hroot.
Qed.

Lemma getSnakemakeTasks_root (h : Host) (root : string) :
  rootPath h = Some root → truthy root = true →
  ∃ k, runSync (getSnakemakeTasks join) h =
         (AwaitingExists k, fsExists (join root "Snakefile") h)
       ∧ existsCont root k.
Proof.
  intros Hroot Htruthy. unfold getSnakemakeTasks. cbn.
  rewrite Hroot. cbn. rewrite Htruthy. cbn.
  eexists. split; [done|]. split; [done|].
  intros h'. cbn. eexists. split; [done|].
  intros reply h''. cbn. rewrite execCallback_settles.
  destruct reply as [[e|] out err]; cbn.
  - unfold afterFailure. cbn. by destruct err, out.
  - unfold afterSuccess. rewrite truthy_length. by destruct err.
Qed.

(** The first step of a discovery, in all cases. *)
Lemma getSnakemakeTasks_start (h : Host) :
  (falsy (rootPath h) = true ∧
   runSync (getSnakemakeTasks join) h = (Fulfilled [], h)) ∨
  (∃ root k, rootPath h = Some root ∧ truthy root = true ∧
     runSync (getSnakemakeTasks join) h =
       (AwaitingExists k, fsExists (join root "Snakefile") h) ∧
     existsCont root k).
Proof.
  destruct (falsy (rootPath h)) eqn:Hroot.
  - left. split; [done|]. by apply getSnakemakeTasks_no_root.
  - right. destruct (rootPath h) as [root|] eqn:Hr; [|done].
    apply negb_false_iff in Hroot.
    destruct (getSnakemakeTasks_root h root Hr Hroot) as (k & Hk & Hcont).
    by exists root, k.
Qed.

Lemma passState_start (h : Host) :
  passState (fst (runSync (getSnakemakeTasks join) h)).
Proof.
  destruct (getSnakemakeTasks_start h) as [[_ ->]|(root & k & _ & _ & -> & Hk)];
    simpl; eauto.
Qed.

End Steps.

(** ** The cache of the discovery *)

Lemma countWhere_app {A : Type} (P : A → bool) (l l' : list A) :
  countWhere P (l ++ l') = countWhere P l + countWhere P l'.
Proof. induction l as [|x l IH]; simpl; [done | rewrite IH; lia]. Qed.

Lemma countWhere_insert {A : Type} (P : A → bool) (l : list A) (i : nat) (x y : A) :
  l !! i = Some y →
  countWhere P (<[i:=x]> l) + (if P y then 1 else 0) =
    countWhere P l + (if P x then 1 else 0).
Proof.
  revert i. induction l as [|z l IH]; intros [|i] Hi; simpl in *; try done.
  - injection Hi as ->. lia.
  - specialize (IH i Hi). lia.
Qed.

Lemma children_afterSuccess (stderr : string) (h : Host) :
  children (afterSuccess stderr h) = children h.
Proof. by destruct stderr, h as [? [?|] ? ?]. Qed.

Lemma children_afterFailure (stdout stderr : string) (h : Host) :
  children (afterFailure stdout stderr h) = children h.
Proof. by destruct stdout, stderr, h as [? [?|] ? ?]. Qed.

Section Cache.

Variable join : string → string → string.

Lemma provideTasks_cached (w : World) (p : nat) :
  snakemakePromise w = Some p → provideTasks join w = (Some p, w).
Proof. intros Hp. unfold provideTasks. rewrite Hp. simpl. by rewrite Hp. Qed.

Lemma startDiscovery_fields (w : World) :
  host (startDiscovery join w) = snd (runSync (getSnakemakeTasks join) (host w)) ∧
  promises (startDiscovery join w) =
    promises w ++ [fst (runSync (getSnakemakeTasks join) (host w))] ∧
  snakemakePromise (startDiscovery join w) = Some (length (promises w)) ∧
  watchers (startDiscovery join w) = watchers w ∧
  providers (startDiscovery join w) = providers w ∧
  taskProvider (startDiscovery join w) = taskProvider w.
Proof.
  unfold startDiscovery.
  by destruct (runSync (getSnakemakeTasks join) (host w)) as [st h].
Qed.

Lemma provideTasks_empty (w : World) :
  snakemakePromise w = None →
  provideTasks join w = (Some (length (promises w)), startDiscovery join w).
Proof.
  intros Hp. unfold provideTasks. rewrite Hp.
  by destruct (startDiscovery_fields w) as (_ & _ & -> & _).
Qed.

(** After a request the variable holds the promise that was returned. *)
Lemma provideTasks_stored (w : World) :
  snakemakePromise (snd (provideTasks join w)) = fst (provideTasks join w) ∧
  is_Some (fst (provideTasks join w)).
Proof.
  destruct (snakemakePromise w) as [p|] eqn:Hp.
  - rewrite (provideTasks_cached w p) by done. simpl. eauto.
  - rewrite provideTasks_empty by done. simpl.
    destruct (startDiscovery_fields w) as (_ & _ & -> & _). eauto.
Qed.

Lemma resumeExists_fields (p : nat) (value : bool) (w : World)
    (k : bool → Prog (list Task)) :
  promises w !! p = Some (AwaitingExists k) →
  host (resumeExists p value w) = snd (runSync (k value) (host w)) ∧
  promises (resumeExists p value w) =
    <[p := fst (runSync (k value) (host w))]> (promises w) ∧
  snakemakePromise (resumeExists p value w) = snakemakePromise w.
Proof.
  intros Hp. unfold resumeExists. rewrite Hp.
  by destruct (runSync (k value) (host w)) as [st h].
Qed.

Lemma resumeExec_fields (p : nat) (reply : ExecReply) (w : World)
    (k : ExecReply → Prog (list Task)) :
  promises w !! p = Some (AwaitingExec k) →
  host (resumeExec p reply w) = snd (runSync (k reply) (host w)) ∧
  promises (resumeExec p reply w) =
    <[p := fst (runSync (k reply) (host w))]> (promises w) ∧
  snakemakePromise (resumeExec p reply w) = snakemakePromise w.
Proof.
  intros Hp. unfold resumeExec. rewrite Hp.
  by destruct (runSync (k reply) (host w)) as [st h].
Qed.

Lemma resumeExists_other (p : nat) (value : bool) (w : World) :
  (∀ k, promises w !! p ≠ Some (AwaitingExists k)) →
  resumeExists p value w = w.
Proof.
  intros Hp. unfold resumeExists.
  destruct (promises w !! p) as [[]|] eqn:Hl; try done. by destruct (Hp k).
Qed.

Lemma resumeExec_other (p : nat) (reply : ExecReply) (w : World) :
  (∀ k, promises w !! p ≠ Some (AwaitingExec k)) →
  resumeExec p reply w = w.
Proof.
  intros Hp. unfold resumeExec.
  destruct (promises w !! p) as [[]|] eqn:Hl; try done. by destruct (Hp k).
Qed.

(** The listeners only clear the variable. *)
Lemma fsEvent_fields (kind : FsEventKind) (w : World) :
  host (fsEvent kind w) = host w ∧
  promises (fsEvent kind w) = promises w ∧
  watchers (fsEvent kind w) = watchers w ∧
  taskProvider (fsEvent kind w) = taskProvider w ∧
  (snakemakePromise (fsEvent kind w) = None ∨ fsEvent kind w = w).
Proof.
  unfold fsEvent.
  generalize (concat (map (listeners kind) (watchers w))) as ls.
  intros ls. revert w. induction ls as [|[] ls IH]; intros w; simpl.
  - repeat split; auto.
  - destruct (IH (setSnakemakePromise None w)) as (-> & -> & -> & -> & [H|H]).
    + repeat split; auto.
    + rewrite H. simpl. repeat split; auto.
Qed.

Lemma fsEvent_listeners (kind : FsEventKind) (w : World) :
  concat (map (listeners kind) (watchers w)) ≠ [] →
  snakemakePromise (fsEvent kind w) = None.
Proof.
  unfold fsEvent.
  generalize (concat (map (listeners kind) (watchers w))) as ls.
  intros [|[] ls] Hne; [done|]. simpl.
  generalize (setSnakemakePromise None w), (eq_refl : snakemakePromise (setSnakemakePromise None w) = None).
  induction ls as [|[] ls IH]; intros w' Hw'; simpl; [done|].
  by apply IH.
Qed.

End Cache.

Section Events.

Variable join : string → string → string.

(** No event changes what is registered with the host. *)
Lemma handle_registered (e : Event) (w : World) :
  watchers (handle join e w) = watchers w ∧
  taskProvider (handle join e w) = taskProvider w.
Proof.
  destruct e as [|kind|p value|p reply|r]; unfold handle.
  - destruct (taskProvider w) eqn:Ht; [|done].
    destruct (snakemakePromise w) as [q|] eqn:Hq.
    + by rewrite (provideTasks_cached join w q).
    + rewrite provideTasks_empty by done. simpl.
      destruct (startDiscovery_fields join w) as (_ & _ & _ & -> & _ & ->). done.
  - by destruct (fsEvent_fields kind w) as (_ & _ & -> & -> & _).
  - unfold resumeExists. destruct (promises w !! p) as [[]|]; try done.
    by destruct (runSync _ _).
  - unfold resumeExec. destruct (promises w !! p) as [[]|]; try done.
    by destruct (runSync _ _).
  - done.
Qed.

Lemma run_registered (events : list Event) (w : World) :
  watchers (run join events w) = watchers w ∧
  taskProvider (run join events w) = taskProvider w.
Proof.
  unfold run. revert w. induction events as [|e events IH]; intros w; simpl; [done|].
  destruct (IH (handle join e w)) as [-> ->]. apply handle_registered.
Qed.

(** The promises stay promises of [getSnakemakeTasks]. *)
Lemma handle_passState (e : Event) (w : World) :
  Forall passState (promises w) → Forall passState (promises (handle join e w)).
Proof.
  intros Hall. destruct e as [|kind|p value|p reply|r]; unfold handle.
  - destruct (taskProvider w); [|done].
    destruct (snakemakePromise w) as [q|] eqn:Hq.
    + by rewrite (provideTasks_cached join w q).
    + rewrite provideTasks_empty by done. simpl.
      destruct (startDiscovery_fields join w) as (_ & -> & _).
      apply Forall_app. split; [done|].
      apply Forall_singleton, passState_start.
  - by destruct (fsEvent_fields kind w) as (_ & -> & _).
  - destruct (promises w !! p) as [st|] eqn:Hp;
      [|by rewrite resumeExists_other by congruence].
    destruct st as [| | |k|]; try by rewrite resumeExists_other by congruence.
    destruct (resumeExists_fields p value w k Hp) as (_ & -> & _).
    apply Forall_insert; [done|].
    destruct (proj1 (Forall_lookup _ _) Hall p _ Hp) as (root & Hfalse & Htrue).
    destruct value.
    + destruct (Htrue (host w)) as (k' & -> & Hk'). simpl. eauto.
    + by rewrite Hfalse.
  - destruct (promises w !! p) as [st|] eqn:Hp;
      [|by rewrite resumeExec_other by congruence].
    destruct st as [| | | |k]; try by rewrite resumeExec_other by congruence.
    destruct (resumeExec_fields p reply w k Hp) as (_ & -> & _).
    apply Forall_insert; [done|].
    destruct (proj1 (Forall_lookup _ _) Hall p _ Hp) as (root & Hk).
    rewrite Hk. by destruct (replyError reply).
  - done.
Qed.

Lemma run_passState (events : list Event) (w : World) :
  Forall passState (promises w) → Forall passState (promises (run join events w)).
Proof.
  unfold run. revert w. induction events as [|e events IH]; intros w Hall; simpl; [done|].
  by apply IH, handle_passState.
Qed.

(** So it is in every world that an activation and events lead to from a
    world without promises. *)
Lemma activated_passState (events : list Event) (w0 : World) :
  promises w0 = [] →
  Forall passState (promises (run join events (activate join w0))).
Proof.
  intros Hnone. apply run_passState.
  assert (promises (activate join w0) = promises w0) as ->; [|by rewrite Hnone].
  unfold activate. destruct (rootPath (host w0)) as [root|]; [|done].
  by destruct (truthy root).
Qed.

(** While no notification comes, a cached promise stays cached and no
    discovery starts. *)
Lemma handle_quiet_cached (e : Event) (w : World) (p : nat) :
  quiet e = true → snakemakePromise w = Some p →
  snakemakePromise (handle join e w) = Some p ∧
  length (promises (handle join e w)) = length (promises w).
Proof.
  intros Hq Hp. destruct e as [|kind|q value|q reply|r]; unfold handle; try done.
  - destruct (taskProvider w); [|done].
    by rewrite (provideTasks_cached join w p).
  - destruct (promises w !! q) as [st|] eqn:Hl;
      [|by rewrite resumeExists_other by congruence].
    destruct st as [| | |k|]; try by rewrite resumeExists_other by congruence.
    destruct (resumeExists_fields q value w k Hl) as (_ & -> & ->).
    by rewrite length_insert.
  - destruct (promises w !! q) as [st|] eqn:Hl;
      [|by rewrite resumeExec_other by congruence].
    destruct st as [| | | |k]; try by rewrite resumeExec_other by congruence.
    destruct (resumeExec_fields q reply w k Hl) as (_ & -> & ->).
    by rewrite length_insert.
Qed.

Lemma run_quiet_cached (events : list Event) (w : World) (p : nat) :
  forallb quiet events = true → snakemakePromise w = Some p →
  snakemakePromise (run join events w) = Some p ∧
  length (promises (run join events w)) = length (promises w).
Proof.
  unfold run. revert w. induction events as [|e events IH]; intros w Hq Hp; simpl; [done|].
  simpl in Hq. apply andb_prop in Hq as [He Hq].
  destruct (handle_quiet_cached e w p He Hp) as [Hp' <-]. by apply IH.
Qed.

(** While no notification comes, at most one discovery starts, and none
    when a promise is cached. *)
Lemma handle_quiet_started (e : Event) (w : World) :
  quiet e = true →
  length (promises (handle join e w)) + match snakemakePromise (handle join e w) with Some _ => 0 | None => 1 end
  ≤ length (promises w) + match snakemakePromise w with Some _ => 0 | None => 1 end.
Proof.
  intros Hq. destruct (snakemakePromise w) as [p|] eqn:Hp.
  - destruct (handle_quiet_cached e w p Hq Hp) as [-> ->]. lia.
  - destruct e as [|kind|q value|q reply|r]; unfold handle; try done.
    + destruct (taskProvider w); [|rewrite Hp; lia].
      rewrite provideTasks_empty by done. simpl.
      destruct (startDiscovery_fields join w) as (_ & -> & -> & _).
      rewrite length_app. simpl. lia.
    + destruct (promises w !! q) as [st|] eqn:Hl;
        [|rewrite resumeExists_other by congruence; rewrite Hp; lia].
      destruct st as [| | |k|];
        try (rewrite resumeExists_other by congruence; rewrite Hp; lia).
      destruct (resumeExists_fields q value w k Hl) as (_ & -> & ->).
      rewrite length_insert, Hp. lia.
    + destruct (promises w !! q) as [st|] eqn:Hl;
        [|rewrite resumeExec_other by congruence; rewrite Hp; lia].
      destruct st as [| | | |k];
        try (rewrite resumeExec_other by congruence; rewrite Hp; lia).
      destruct (resumeExec_fields q reply w k Hl) as (_ & -> & ->).
      rewrite length_insert, Hp. lia.
    + simpl. rewrite Hp. lia.
Qed.

Lemma run_quiet_started (events : list Event) (w : World) :
  forallb quiet events = true →
  length (promises (run join events w))
  ≤ length (promises w) + match snakemakePromise w with Some _ => 0 | None => 1 end.
Proof.
  unfold run. revert w. induction events as [|e events IH]; intros w Hq; simpl; [lia|].
  simpl in Hq. apply andb_prop in Hq as [He Hq].
  specialize (IH (handle join e w) Hq).
  pose proof (handle_quiet_started e w He). lia.
Qed.

(** A fulfilled promise keeps its tasks. *)
Lemma handle_fulfilled (e : Event) (w : World) (p : nat) (tasks : list Task) :
  promises w !! p = Some (Fulfilled tasks) →
  promises (handle join e w) !! p = Some (Fulfilled tasks).
Proof.
  intros Hp. destruct e as [|kind|q value|q reply|r]; unfold handle; try done.
  - destruct (taskProvider w); [|done].
    destruct (snakemakePromise w) as [s|] eqn:Hs.
    + by rewrite (provideTasks_cached join w s).
    + rewrite provideTasks_empty by done. simpl.
      destruct (startDiscovery_fields join w) as (_ & -> & _).
      by apply lookup_app_l_Some.
  - by destruct (fsEvent_fields kind w) as (_ & -> & _).
  - destruct (promises w !! q) as [st|] eqn:Hl;
      [|by rewrite resumeExists_other by congruence].
    destruct st as [| | |k|]; try by rewrite resumeExists_other by congruence.
    destruct (resumeExists_fields q value w k Hl) as (_ & -> & _).
    rewrite list_lookup_insert_ne; [done|]. intros ->. congruence.
  - destruct (promises w !! q) as [st|] eqn:Hl;
      [|by rewrite resumeExec_other by congruence].
    destruct st as [| | | |k]; try by rewrite resumeExec_other by congruence.
    destruct (resumeExec_fields q reply w k Hl) as (_ & -> & _).
    rewrite list_lookup_insert_ne; [done|]. intros ->. congruence.
Qed.

Lemma run_fulfilled (events : list Event) (w : World) (p : nat) (tasks : list Task) :
  promises w !! p = Some (Fulfilled tasks) →
  promises (run join events w) !! p = Some (Fulfilled tasks).
Proof.
  unfold run. revert w. induction events as [|e events IH]; intros w Hp; simpl; [done|].
  by apply IH, handle_fulfilled.
Qed.

End Events.

Section Budget.

Variable join : string → string → string.

(** While no notification comes, every child process that starts was
    already counted in the budget. *)
Lemma handle_quiet_budget (e : Event) (w : World) :
  Forall passState (promises w) → quiet e = true →
  invocationBudget (handle join e w) ≤ invocationBudget w.
Proof.
  intros Hall Hq. unfold invocationBudget.
  destruct e as [|kind|p value|p reply|r]; unfold handle; try done.
  - destruct (taskProvider w); [|done].
    destruct (snakemakePromise w) as [q|] eqn:Hs.
    + rewrite (provideTasks_cached join w q) by done. simpl. by rewrite Hs.
    + rewrite provideTasks_empty by done. simpl.
      destruct (startDiscovery_fields join w) as (-> & -> & -> & _).
      rewrite countWhere_app.
      destruct (getSnakemakeTasks_start join (host w))
        as [[_ ->]|(root & k & _ & _ & -> & _)]; simpl; lia.
  - destruct (promises w !! p) as [st|] eqn:Hp;
      [|by rewrite resumeExists_other by congruence].
    destruct st as [| | |k|]; try by rewrite resumeExists_other by congruence.
    destruct (resumeExists_fields p value w k Hp) as (-> & -> & ->).
    destruct (proj1 (Forall_lookup _ _) Hall p _ Hp) as (root & Hfalse & Htrue).
    destruct value.
    + destruct (Htrue (host w)) as (k' & -> & _). simpl.
      pose proof (countWhere_insert awaitsExists _ _ (AwaitingExec k') _ Hp) as Hc.
      simpl in Hc. rewrite length_app. simpl. lia.
    + rewrite Hfalse. simpl.
      pose proof (countWhere_insert awaitsExists _ _ (Fulfilled []) _ Hp) as Hc.
      simpl in Hc. lia.
  - destruct (promises w !! p) as [st|] eqn:Hp;
      [|by rewrite resumeExec_other by congruence].
    destruct st as [| | | |k]; try by rewrite resumeExec_other by congruence.
    destruct (resumeExec_fields p reply w k Hp) as (-> & -> & ->).
    destruct (proj1 (Forall_lookup _ _) Hall p _ Hp) as (root & Hk).
    rewrite Hk.
    destruct (replyError reply); cbn [fst snd];
      rewrite ?children_afterSuccess, ?children_afterFailure.
    + pose proof (countWhere_insert awaitsExists _ _ (Fulfilled []) _ Hp) as Hc.
      simpl in Hc. lia.
    + pose proof (countWhere_insert awaitsExists _ _
                    (Fulfilled (tasksOfStdout (replyStdout reply))) _ Hp) as Hc.
      simpl in Hc. lia.
Qed.

Lemma run_quiet_budget (events : list Event) (w : World) :
  Forall passState (promises w) → forallb quiet events = true →
  invocationBudget (run join events w) ≤ invocationBudget w.
Proof.
  unfold run. revert w.
  induction events as [|e events IH]; intros w Hall Hq; simpl; [lia|].
  simpl in Hq. apply andb_prop in Hq as [He Hq].
  pose proof (handle_quiet_budget e w Hall He).
  specialize (IH (handle join e w) (handle_passState join e w Hall) Hq). lia.
Qed.

(** The promise of a request on an empty cache goes through the file check
    and the child process to the result of [discover]. *)
Lemma discovery_by_events (w : World) (fileExists : bool) (reply : ExecReply) :
  snakemakePromise w = None →
  let p := length (promises w) in
  let w' := run join [ExistsCallback p fileExists; ExecCallback p reply]
              (snd (provideTasks join w)) in
  promises w' !! p = Some (fst (discover join fileExists reply (host w))) ∧
  host w' = snd (discover join fileExists reply (host w)).
Proof.
  intros Hs. rewrite provideTasks_empty by done. cbn [snd run foldl handle].
  pose proof (startDiscovery_fields join w) as (Hh & Hpr & _).
  destruct (getSnakemakeTasks_start join (host w))
    as [[Hroot Hrun]|(root & k & Hroot & Htruthy & Hrun & Hfalse & Htrue)];
    rewrite Hrun in Hh, Hpr; simpl in Hh, Hpr.
  - rewrite discover_no_root by done.
    assert (promises (startDiscovery join w) !! length (promises w)
            = Some (Fulfilled [])) as Hl
      by (rewrite Hpr; apply list_lookup_middle; done).
    rewrite resumeExists_other by congruence.
    rewrite resumeExec_other by congruence. done.
  - rewrite (discover_root join _ _ _ root) by done.
    assert (promises (startDiscovery join w) !! length (promises w)
            = Some (AwaitingExists k)) as Hl
      by (rewrite Hpr; apply list_lookup_middle; done).
    destruct (resumeExists_fields _ fileExists _ k Hl) as (Hh' & Hpr' & _).
    rewrite Hh in Hh', Hpr'. rewrite Hpr in Hpr'.
    destruct fileExists.
    + destruct (Htrue (fsExists (join root "Snakefile") (host w))) as (k' & Hk' & Hcont).
      rewrite Hk' in Hh', Hpr'. simpl in Hh', Hpr'.
      assert (promises (resumeExists (length (promises w)) true (startDiscovery join w))
                !! length (promises w) = Some (AwaitingExec k')) as Hl'.
      { rewrite Hpr'. apply list_lookup_insert_eq. rewrite length_app. simpl. lia. }
      destruct (resumeExec_fields _ reply _ k' Hl') as (-> & -> & _).
      rewrite Hh', Hcont. rewrite Hpr'.
      rewrite list_lookup_insert_eq
        by (rewrite length_insert, length_app; simpl; lia).
      by destruct (replyError reply).
    + rewrite Hfalse in Hh', Hpr'. simpl in Hh', Hpr'.
      assert (promises (resumeExists (length (promises w)) false (startDiscovery join w))
                !! length (promises w) = Some (Fulfilled [])) as Hl'.
      { rewrite Hpr'. apply list_lookup_insert_eq. rewrite length_app. simpl. lia. }
      rewrite resumeExec_other by congruence. by rewrite Hl', Hh'.
Qed.

End Budget.

(** ** The tasks of a discovery *)

Section Tasks.

Variable join : string → string → string.

(** A discovery ends with no task or with the tasks of the output. *)
Lemma discover_tasks (fileExists : bool) (reply : ExecReply) (h : Host)
    (tasks : list Task) :
  fst (discover join fileExists reply h) = Fulfilled tasks →
  tasks = [] ∨ tasks = tasksOfStdout (replyStdout reply).
Proof.
  destruct (falsy (rootPath h)) eqn:Hroot.
  - rewrite discover_no_root by done. simpl. intros [= <-]. by left.
  - destruct (rootPath h) as [root|] eqn:Hr; [|done].
    apply negb_false_iff in Hroot.
    rewrite (discover_root _ _ _ _ root) by done.
    destruct fileExists; [|simpl; intros [= <-]; by left].
    destruct (replyError reply); simpl; intros [= <-]; auto.
Qed.

Lemma specClassification_build (name : string) :
  Some Build = specClassification name ↔ isBuildTask name = true.
Proof.
  unfold specClassification.
  destruct (isBuildTask name); [done|].
  by destruct (isTestTask name).
Qed.

(** C1 (as the code has it): every task of a discovery is in the group
    [Build], whatever its name.  [isBuildTask] and [isTestTask] do decide
    the substrings the claim names, but the discovery does not ask them: its
    group is the one the claim gives exactly for the names with ["build"],
    ["compile"] or ["watch"] in them, and no task is in the group [Test] or in
    none. *)
Theorem discovered_tasks_are_build (fileExists : bool) (reply : ExecReply) (h : Host)
    (tasks : list Task) :
  fst (discover join fileExists reply h) = Fulfilled tasks →
  Forall (λ t,
    group t = Some Build ∧
    (group t = specClassification (name t) ↔
       contains (name t) "build" ∨ contains (name t) "compile" ∨
       contains (name t) "watch")) tasks ∧
  (∀ name, isBuildTask name = true ↔
     contains name "build" ∨ contains name "compile" ∨ contains name "watch") ∧
  (∀ name, isTestTask name = true ↔ contains name "test").
Proof.
  intros Hd. split; [|split; [apply isBuildTask_true | apply isTestTask_true]].
  apply discover_tasks in Hd as [->| ->]; [constructor|].
  rewrite tasksOfStdout_lines. apply Forall_map, Forall_forall.
  intros line _. simpl. split; [done|].
  by rewrite specClassification_build, isBuildTask_true.
Qed.

(** C2 (as the code has it): for the output of the example the discovery
    gives three tasks, in the order of the output, all three in the group
    [Build]. *)
Theorem example_tasks (h : Host) (root stderr : string) :
  rootPath h = Some root → truthy root = true →
  ∃ tasks,
    fst (discover join true (succeeded exampleStdout stderr) h) = Fulfilled tasks ∧
    map (λ t, (name t, group t)) tasks =
      [("build_all", Some Build); ("run_tests", Some Build); ("cleanup", Some Build)].
Proof.
  intros Hroot Htruthy. rewrite (discover_root _ _ _ _ root) by done.
  simpl. by eexists.
Qed.

(** C7: the task names are the non-empty pieces of [split], whole and in
    order.  For a text made of lines, each ended by a line feed or by a
    carriage return and a line feed, these are the non-empty lines as they
    stand, spaces and all; a text of line endings only gives no task. *)
Theorem task_names_are_lines (stdout : string) (ls : list (string * Eol))
    (last : string) (eols : list Eol) :
  forallb wholeLine (map fst ls) = true → noLineFeed last = true →
  map name (tasksOfStdout stdout) = filter (λ l, nonEmpty l = true) (split stdout) ∧
  split (unlines ls last) = map fst ls ++ [last] ∧
  map name (tasksOfStdout (unlines ls last)) =
    filter (λ l, nonEmpty l = true) (map fst ls ++ [last]) ∧
  tasksOfStdout (unlines (map (λ e, (EmptyString, e)) eols) EmptyString) = [] ∧
  (∀ h root stderr, rootPath h = Some root → truthy root = true →
     fst (discover join true (succeeded stdout stderr) h)
     = Fulfilled (tasksOfStdout stdout)).
Proof.
  intros Hls Hlast.
  assert (∀ s, map name (tasksOfStdout s) = filter (λ l, nonEmpty l = true) (split s))
    as Hnames by (intros s; by rewrite tasksOfStdout_lines, name_lineTask).
  split; [done|]. split; [by apply split_unlines|].
  split; [by rewrite Hnames, split_unlines|]. split.
  - rewrite tasksOfStdout_lines, split_unlines; [|clear; by induction eols|done].
    rewrite map_map. simpl. clear. induction eols as [|e eols IH]; [done|].
    simpl. by rewrite filter_cons_False by done.
  - intros h root stderr Hroot Htruthy.
    by rewrite (discover_root _ _ _ _ root) by done.
Qed.

(** C9: the command of a task is ["snakemake "] and then the line as it
    stands, for every non-empty line of the output. *)
Theorem command_of_task (stdout : string) :
  map (λ t, (name t, commandLine (execution t))) (tasksOfStdout stdout) =
    map (λ line, (line, "snakemake " +:+ line))
      (filter (λ l, nonEmpty l = true) (split stdout)) ∧
  Forall (λ t, commandLine (execution t) = "snakemake " +:+ name t ∧
               definition t = {| type := "snakemake"; task := name t; file := None |} ∧
               source t = "snakemake")
    (tasksOfStdout stdout) ∧
  (∀ fileExists reply h tasks,
     fst (discover join fileExists reply h) = Fulfilled tasks →
     Forall (λ t, commandLine (execution t) = "snakemake " +:+ name t) tasks).
Proof.
  assert (∀ s, Forall (λ t, commandLine (execution t) = "snakemake " +:+ name t ∧
                 definition t = {| type := "snakemake"; task := name t; file := None |} ∧
                 source t = "snakemake") (tasksOfStdout s)) as Hall.
  { intros s. rewrite tasksOfStdout_lines. by apply Forall_map, Forall_forall. }
  split; [by rewrite tasksOfStdout_lines, map_map|]. split; [done|].
  intros fileExists reply h tasks [->| ->]%discover_tasks; [constructor|].
  eapply Forall_impl; [apply Hall|]. by intros t [? _].
Qed.

End Tasks.

(** ** What a discovery leaves in the host *)

Lemma channelLog_afterSuccess (stderr : string) (h : Host) :
  channelLog (afterSuccess stderr h) =
    channelLog h ++ (if truthy stderr then [appendLine stderr; show true] else []).
Proof.
  unfold afterSuccess.
  destruct stderr, h as [? [?|] ? ?]; cbn; by rewrite <- ?app_assoc, ?app_nil_r.
Qed.

Lemma channelLog_afterFailure (stdout stderr : string) (h : Host) :
  channelLog (afterFailure stdout stderr h) =
    channelLog h
    ++ (if truthy stderr then [appendLine stderr] else [])
    ++ (if truthy stdout then [appendLine stdout] else [])
    ++ [appendLine "Auto detecting Snakemake tasts failed."; show true].
Proof.
  unfold afterFailure.
  destruct stdout, stderr, h as [? [?|] ? ?]; cbn; by rewrite <- ?app_assoc.
Qed.

Section Outcomes.

Variable join : string → string → string.

(** C3 (as the code has it): when the child process fails, [exec] rejects,
    and the discovery writes to the output channel the captured [stderr] if
    it is not empty, then the captured [stdout] if it is not empty, then the
    diagnostic, shows the channel, and is fulfilled with no task.  No
    discovery is ever rejected. *)
Theorem failure_is_logged (h : Host) (root : string) (error : ExecException)
    (stdout stderr : string) :
  rootPath h = Some root → truthy root = true →
  execCallback (failed error stdout stderr) Unsettled =
    RejectedWith (Rejected.mk error stdout stderr) ∧
  fst (discover join true (failed error stdout stderr) h) = Fulfilled [] ∧
  channelLog (snd (discover join true (failed error stdout stderr) h)) =
    channelLog h
    ++ (if truthy stderr then [appendLine stderr] else [])
    ++ (if truthy stdout then [appendLine stdout] else [])
    ++ [appendLine "Auto detecting Snakemake tasts failed."; show true] ∧
  (∀ fileExists reply h', ∃ tasks,
     fst (discover join fileExists reply h') = Fulfilled tasks).
Proof.
  intros Hroot Htruthy. split; [done|].
  rewrite (discover_root _ _ _ _ root) by done. simpl.
  split; [done|]. split; [|apply discover_fulfilled].
  by rewrite channelLog_afterFailure.
Qed.

(** C6: without a [Snakefile] the discovery is fulfilled with no task; it
    starts no child process and leaves the output channel alone.  With a
    workspace root all it does is the one file check. *)
Theorem no_snakefile_no_tasks (reply : ExecReply) (h : Host) :
  fst (discover join false reply h) = Fulfilled [] ∧
  children (snd (discover join false reply h)) = children h ∧
  _channel (snd (discover join false reply h)) = _channel h ∧
  (∀ root, rootPath h = Some root → truthy root = true →
     snd (discover join false reply h) = fsExists (join root "Snakefile") h).
Proof.
  destruct (falsy (rootPath h)) eqn:Hroot.
  - rewrite discover_no_root by done. simpl. repeat split; try done.
    intros root Hr Htruthy. rewrite Hr in Hroot. simpl in Hroot.
    by rewrite Htruthy in Hroot.
  - destruct (rootPath h) as [root|] eqn:Hr; [|done].
    apply negb_false_iff in Hroot.
    rewrite (discover_root _ _ _ _ root) by done. simpl.
    repeat split; try done. by intros ? [= <-] _.
Qed.

(** C8: [exec] resolves with both streams whenever the callback has no
    error, whatever is in [stderr], and rejects only when it has one.  After
    a success a non-empty [stderr] is written to the output channel and the
    channel is shown; the tasks are those of [stdout] all the same. *)
Theorem stderr_is_advisory (h : Host) (root stdout stderr : string) :
  rootPath h = Some root → truthy root = true →
  execCallback (succeeded stdout stderr) Unsettled =
    ResolvedWith (Resolved.mk stdout stderr) ∧
  (∀ reply, (∃ reason, execCallback reply Unsettled = RejectedWith reason) ↔
            is_Some (replyError reply)) ∧
  fst (discover join true (succeeded stdout stderr) h) =
    Fulfilled (tasksOfStdout stdout) ∧
  fst (discover join true (succeeded stdout stderr) h) =
    fst (discover join true (succeeded stdout EmptyString) h) ∧
  channelLog (snd (discover join true (succeeded stdout stderr) h)) =
    channelLog h ++ (if truthy stderr then [appendLine stderr; show true] else []).
Proof.
  intros Hroot Htruthy. split; [done|]. split.
  - intros reply. rewrite execCallback_settles.
    destruct (replyError reply); split.
    + by eexists.
    + by eexists.
    + by intros [? ?].
    + by intros [? ?].
  - rewrite !(discover_root _ _ _ _ root) by done. simpl.
    split; [done|]. split; [done|].
    by rewrite channelLog_afterSuccess.
Qed.

(** C10: each discovery reads the workspace root when it starts.  Without
    one it is fulfilled with no task and does nothing to the host: no file
    check, no child process.  That holds after an activation that had a root
    as well, and a root set later is the one the discovery uses.  An
    activation without a root registers nothing. *)
Theorem root_is_read_by_each_discovery (w : World) (r : option string) :
  snakemakePromise w = None →
  (∀ fileExists reply h, falsy (rootPath h) = true →
     discover join fileExists reply h = (Fulfilled [], h)) ∧
  (let w1 := handle join (WorkspaceRoot r) (activate join w) in
   let w2 := snd (provideTasks join w1) in
   (falsy r = true →
      promises w2 = promises w ++ [Fulfilled []] ∧ host w2 = host w1) ∧
   (∀ root, r = Some root → truthy root = true →
      existsCalls (host w2) = existsCalls (host w) ++ [join root "Snakefile"] ∧
      children (host (resumeExists (length (promises w)) true w2)) =
        children (host w) ++ [("snakemake --list", {| cwd := root |})])) ∧
  (falsy (rootPath (host w)) = true → activate join w = w).
Proof.
  intros Hs. split; [intros; by apply discover_no_root|]. split.
  - assert (snakemakePromise (handle join (WorkspaceRoot r) (activate join w)) = None
            ∧ promises (handle join (WorkspaceRoot r) (activate join w)) = promises w
            ∧ host (handle join (WorkspaceRoot r) (activate join w))
              = setRootPath r (host w)) as (Hs1 & Hp1 & Hh1).
    { unfold activate. destruct (rootPath (host w)) as [root|]; [|done].
      by destruct (truthy root). }
    cbv zeta. rewrite provideTasks_empty by done. cbn [snd].
    destruct (startDiscovery_fields join (handle join (WorkspaceRoot r) (activate join w)))
      as (Hh & Hp & _).
    rewrite Hp1, Hh1 in *. split.
    + intros Hr. rewrite getSnakemakeTasks_no_root in Hh, Hp by done.
      by rewrite Hh, Hp.
    + intros root -> Htruthy.
      destruct (getSnakemakeTasks_root join (setRootPath (Some root) (host w)) root)
        as (k & Hk & Hfalse & Htrue); [done..|].
      rewrite Hk in Hh, Hp. cbn [fst snd] in Hh, Hp. split; [by rewrite Hh|].
      assert (promises (startDiscovery join (handle join (WorkspaceRoot (Some root)) (activate join w)))
                !! length (promises w) = Some (AwaitingExists k)) as Hl
        by (rewrite Hp; by apply list_lookup_middle).
      destruct (resumeExists_fields _ true _ k Hl) as (-> & _).
      rewrite Hh. by destruct (Htrue (fsExists (join root "Snakefile") (setRootPath (Some root) (host w))))
        as (k' & -> & _).
  - intros Hroot. unfold activate.
    destruct (rootPath (host w)) as [root|]; [|done].
    simpl in Hroot. by rewrite Hroot.
Qed.

End Outcomes.

(** ** Requests and notifications *)

Section Requests.

Variable join : string → string → string.

(** After an activation with a workspace root, every kind of notification
    has a listener, and the provider is registered. *)
Lemma activated_listens (w0 : World) (root0 : string) (events : list Event)
    (kind : FsEventKind) :
  rootPath (host w0) = Some root0 → truthy root0 = true →
  concat (map (listeners kind) (watchers (run join events (activate join w0)))) ≠ [] ∧
  is_Some (taskProvider (run join events (activate join w0))).
Proof.
  intros Hroot Htruthy.
  destruct (run_registered join events (activate join w0)) as [-> ->].
  unfold activate. rewrite Hroot, Htruthy. simpl. split; [|by eexists].
  rewrite map_app, concat_app. intros [_ Hnil]%app_eq_nil. by destruct kind.
Qed.

(** A request on an empty cache, in a world with the provider registered. *)
Lemma request_on_empty (w : World) :
  is_Some (taskProvider w) → snakemakePromise w = None →
  handle join ProvideTasks w = startDiscovery join w ∧
  provideTasks join w = (Some (length (promises w)), startDiscovery join w).
Proof.
  intros [t Ht] Hs. unfold handle. rewrite Ht.
  by rewrite provideTasks_empty.
Qed.

(** The file check of a discovery that has just started. *)
Lemma started_discovery_checks (w : World) (root : string) :
  rootPath (host w) = Some root → truthy root = true →
  let p := length (promises w) in
  let w' := startDiscovery join w in
  existsCalls (host w') = existsCalls (host w) ++ [join root "Snakefile"] ∧
  children (host w') = children (host w) ∧
  children (host (resumeExists p true w')) =
    children (host w) ++ [("snakemake --list", {| cwd := root |})] ∧
  children (host (resumeExists p false w')) = children (host w) ∧
  promises (resumeExists p false w') !! p = Some (Fulfilled []).
Proof.
  intros Hroot Htruthy. cbv zeta.
  destruct (startDiscovery_fields join w) as (Hh & Hp & _).
  destruct (getSnakemakeTasks_root join (host w) root Hroot Htruthy)
    as (k & Hk & Hfalse & Htrue).
  rewrite Hk in Hh, Hp. cbn [fst snd] in Hh, Hp.
  assert (promises (startDiscovery join w) !! length (promises w)
          = Some (AwaitingExists k)) as Hl
    by (rewrite Hp; by apply list_lookup_middle).
  rewrite Hh. repeat split; try done.
  - destruct (resumeExists_fields _ true _ k Hl) as (-> & _).
    rewrite Hh. by destruct (Htrue (fsExists (join root "Snakefile") (host w)))
      as (k' & -> & _).
  - destruct (resumeExists_fields _ false _ k Hl) as (-> & _).
    by rewrite Hh, Hfalse.
  - destruct (resumeExists_fields _ false _ k Hl) as (_ & -> & _).
    rewrite Hfalse. apply list_lookup_insert_eq.
    rewrite Hp, length_app. simpl. lia.
Qed.

(** C5 (as the code has it): after a notification of any kind the variable
    is empty, so the next request does not return the cached promise but
    starts a discovery, with a promise of its own.  That discovery checks
    the file again and starts [snakemake --list] again when the file is
    there; when the file is gone, or there is no workspace root, it ends with
    no task and no child process. *)
Theorem notification_empties_cache (w0 : World) (root0 : string)
    (events : list Event) (kind : FsEventKind) :
  rootPath (host w0) = Some root0 → truthy root0 = true →
  let w := run join events (activate join w0) in
  let w1 := handle join (FsEvent kind) w in
  let p := length (promises w) in
  let w2 := handle join ProvideTasks w1 in
  snakemakePromise w1 = None ∧ promises w1 = promises w ∧ host w1 = host w ∧
  provideTasks join w1 = (Some p, w2) ∧
  promises w !! p = None ∧
  promises w2 = promises w ++ [fst (runSync (getSnakemakeTasks join) (host w))] ∧
  (∀ root, rootPath (host w) = Some root → truthy root = true →
     existsCalls (host w2) = existsCalls (host w) ++ [join root "Snakefile"] ∧
     children (host w2) = children (host w) ∧
     children (host (handle join (ExistsCallback p true) w2)) =
       children (host w) ++ [("snakemake --list", {| cwd := root |})] ∧
     children (host (handle join (ExistsCallback p false) w2)) = children (host w) ∧
     promises (handle join (ExistsCallback p false) w2) !! p = Some (Fulfilled [])) ∧
  (falsy (rootPath (host w)) = true →
     promises w2 !! p = Some (Fulfilled []) ∧ host w2 = host w).
Proof.
  intros Hroot Htruthy. cbv zeta.
  destruct (activated_listens w0 root0 events kind Hroot Htruthy) as [Hl Ht].
  set (w := run join events (activate join w0)) in *.
  change (handle join (FsEvent kind) w) with (fsEvent kind w).
  pose proof (fsEvent_listeners kind w Hl) as Hs.
  destruct (fsEvent_fields kind w) as (Hh & Hp & _ & Htp & _).
  rewrite <- Htp in Ht.
  destruct (request_on_empty (fsEvent kind w) Ht Hs) as [-> Hreq].
  destruct (startDiscovery_fields join (fsEvent kind w)) as (Hh' & Hp' & _).
  pose proof (started_discovery_checks (fsEvent kind w)) as Hchk.
  cbv zeta in Hchk. rewrite Hp in Hreq. rewrite Hh in Hh'. rewrite Hh, Hp in Hp', Hchk.
  split; [done|]. split; [done|]. split; [done|]. split; [done|].
  split; [by apply lookup_ge_None_2|]. split; [done|]. split.
  - intros root Hr Ht'. unfold handle. exact (Hchk root Hr Ht').
  - intros Hf. rewrite Hp', Hh', getSnakemakeTasks_no_root by done.
    split; [by apply list_lookup_middle | done].
Qed.

(** C4 (as the code has it): a request that finds a promise in the
    variable returns that promise and does nothing else.  So of two
    requests with no notification between them the second returns the
    promise of the first and starts neither a discovery nor a child process;
    in the meantime at most one discovery has started and every child
    process was in the budget; and a promise that is fulfilled keeps its
    tasks, so all who hold it see the same.  A discovery from before a
    notification may still be on its way beside a new one: that much of the
    claim does not hold. *)
Theorem requests_share_discovery (w : World) (events : list Event) :
  Forall passState (promises w) → forallb quiet events = true →
  let first := provideTasks join w in
  let w' := run join events (snd first) in
  let second := provideTasks join w' in
  is_Some (fst first) ∧ fst second = fst first ∧ snd second = w' ∧
  length (promises w')
    ≤ length (promises w) + match snakemakePromise w with Some _ => 0 | None => 1 end ∧
  length (children (host w')) ≤ invocationBudget w ∧
  (∀ p, snakemakePromise w = Some p → snd first = w ∧ fst first = Some p) ∧
  (∀ p tasks later, promises w' !! p = Some (Fulfilled tasks) →
     promises (run join later w') !! p = Some (Fulfilled tasks)) ∧
  (∀ root reply, snakemakePromise w = None →
     rootPath (host w) = Some root → truthy root = true →
     let p := length (promises w) in
     children (host (run join [ExistsCallback p true; ExecCallback p reply]
                       (snd (provideTasks join (snd first)))))
     = children (host w) ++ [("snakemake --list", {| cwd := root |})]).
Proof.
  intros Hall Hq. cbv zeta.
  destruct (provideTasks_stored join w) as [Hstored [p Hp]].
  rewrite Hp in Hstored.
  destruct (run_quiet_cached join events _ p Hq Hstored) as [Hs' Hlen].
  split; [by eexists|]. rewrite (provideTasks_cached join _ p Hs'). cbn [fst snd].
  split; [done|]. split; [done|].
  assert (length (promises (snd (provideTasks join w)))
          ≤ length (promises w) + match snakemakePromise w with Some _ => 0 | None => 1 end
          ∧ Forall passState (promises (snd (provideTasks join w)))
          ∧ invocationBudget (snd (provideTasks join w)) ≤ invocationBudget w)
    as (Hstart & Hall' & Hbudget).
  { destruct (snakemakePromise w) as [q|] eqn:Hs.
    - rewrite (provideTasks_cached join w q) by done. simpl. split; [lia|done].
    - rewrite provideTasks_empty by done. cbn [snd].
      destruct (startDiscovery_fields join w) as (Hh & Hpr & Hsl & _).
      split; [rewrite Hpr, length_app; simpl; lia|]. split.
      + rewrite Hpr. apply Forall_app. split; [done|].
        apply Forall_singleton, passState_start.
      + unfold invocationBudget. rewrite Hh, Hpr, Hsl, Hs, countWhere_app.
        destruct (getSnakemakeTasks_start join (host w))
          as [[_ ->]|(root & k & _ & _ & -> & _)]; simpl; lia. }
  split; [lia|]. split.
  { pose proof (run_quiet_budget join events _ Hall' Hq) as Hb.
    unfold invocationBudget in Hb at 1. lia. }
  split.
  { intros q Hsq. by rewrite (provideTasks_cached join w q). }
  split.
  { intros q tasks later. apply run_fulfilled. }
  intros root reply Hs Hroot Htruthy.
  rewrite (provideTasks_cached join (snd (provideTasks join w)) p) by done.
  cbn [snd].
  destruct (discovery_by_events join w true reply Hs) as [_ ->].
  rewrite (discover_root _ _ _ _ root) by done.
  destruct (replyError reply); cbn [snd];
    by rewrite ?children_afterSuccess, ?children_afterFailure.
Qed.

End Requests.

(** ** Where the code parts from the claims, and instances of the theorems *)

(** C1 fails as stated: the discovery puts ["run_tests"] and ["cleanup"]
    in the group [Build], where the claim has [Test] and no group. *)
Lemma classification_by_name_fails :
  ∃ t1 t2,
    fst (discover posixJoin true
           (succeeded (unlines [("run_tests", Bare); ("cleanup", Bare)] "") "")
           (hostAt (Some "/w")))
    = Fulfilled [t1; t2] ∧
    name t1 = "run_tests" ∧ group t1 = Some Build ∧
    specClassification (name t1) = Some Test ∧
    name t2 = "cleanup" ∧ group t2 = Some Build ∧
    specClassification (name t2) = None.
Proof. do 2 eexists. by vm_compute. Qed.

Lemma discovered_tasks_are_build_witness :
  Forall (λ t,
    group t = Some Build ∧
    (group t = specClassification (name t) ↔
       contains (name t) "build" ∨ contains (name t) "compile" ∨
       contains (name t) "watch")) (tasksOfStdout exampleStdout) ∧
  (∀ name, isBuildTask name = true ↔
     contains name "build" ∨ contains name "compile" ∨ contains name "watch") ∧
  (∀ name, isTestTask name = true ↔ contains name "test").
Proof.
  apply (discovered_tasks_are_build posixJoin true (succeeded exampleStdout "")
           (hostAt (Some "/w"))).
  reflexivity.
Defined.

(** C2 fails as stated: for the output of the example the groups are not
    [Build], [Test] and none. *)
Lemma example_classification_fails :
  ∃ tasks,
    fst (discover posixJoin true (succeeded exampleStdout "") (hostAt (Some "/w")))
    = Fulfilled tasks ∧
    map name tasks = ["build_all"; "run_tests"; "cleanup"] ∧
    map group tasks = [Some Build; Some Build; Some Build] ∧
    map group tasks ≠ [Some Build; Some Test; None].
Proof. eexists. by vm_compute. Qed.

Lemma example_tasks_witness :
  ∃ tasks,
    fst (discover posixJoin true (succeeded exampleStdout "warning") (hostAt (Some "/w")))
    = Fulfilled tasks ∧
    map (λ t, (name t, group t)) tasks =
      [("build_all", Some Build); ("run_tests", Some Build); ("cleanup", Some Build)].
Proof.
  apply (example_tasks posixJoin (hostAt (Some "/w")) "/w" "warning"); reflexivity.
Defined.

(** C3 fails as stated: after a failure with ["rule not found"] on [stderr]
    and nothing on [stdout], the output channel has no line for [stdout]. *)
Lemma failure_log_skips_empty_stream :
  let reply := failed (ExitCode 1) "" "rule not found" in
  channelLog (snd (discover posixJoin true reply (hostAt (Some "/w")))) =
    [appendLine "rule not found";
     appendLine "Auto detecting Snakemake tasts failed."; show true] ∧
  channelLog (snd (discover posixJoin true reply (hostAt (Some "/w")))) ≠
    channelLog (hostAt (Some "/w")) ++ specFailureLog "" "rule not found".
Proof. by vm_compute. Qed.

Lemma failure_is_logged_witness :
  let h := hostAt (Some "/w") in
  let reply := failed (ExitCode 1) "partial" "rule not found" in
  execCallback reply Unsettled =
    RejectedWith (Rejected.mk (ExitCode 1) "partial" "rule not found") ∧
  fst (discover posixJoin true reply h) = Fulfilled [] ∧
  channelLog (snd (discover posixJoin true reply h)) =
    [appendLine "rule not found"; appendLine "partial";
     appendLine "Auto detecting Snakemake tasts failed."; show true] ∧
  (∀ fileExists reply h', ∃ tasks,
     fst (discover posixJoin fileExists reply h') = Fulfilled tasks).
Proof.
  apply (failure_is_logged posixJoin (hostAt (Some "/w")) "/w" (ExitCode 1)
           "partial" "rule not found"); reflexivity.
Defined.

(** C4 fails as stated: a request, a notification and a request start two
    discoveries, and with the file there both have their child process
    running at once. *)
Lemma two_discoveries_in_flight :
  let w := run posixJoin
             [ProvideTasks; FsEvent Changed; ProvideTasks;
              ExistsCallback 0 true; ExistsCallback 1 true]
             (activate posixJoin (worldAt (Some "/w"))) in
  countWhere inFlight (promises w) = 2 ∧
  countWhere awaitsExec (promises w) = 2 ∧
  children (host w) =
    [("snakemake --list", {| cwd := "/w" |}); ("snakemake --list", {| cwd := "/w" |})] ∧
  ¬ countWhere inFlight (promises w) ≤ 1.
Proof. vm_compute. repeat split; try done. lia. Qed.

Lemma requests_share_discovery_witness :
  let w := activate posixJoin (worldAt (Some "/w")) in
  let events := [ExistsCallback 0 true; ProvideTasks] in
  let first := provideTasks posixJoin w in
  let w' := run posixJoin events (snd first) in
  let second := provideTasks posixJoin w' in
  is_Some (fst first) ∧ fst second = fst first ∧ snd second = w' ∧
  length (promises w')
    ≤ length (promises w) + match snakemakePromise w with Some _ => 0 | None => 1 end ∧
  length (children (host w')) ≤ invocationBudget w ∧
  (∀ p, snakemakePromise w = Some p → snd first = w ∧ fst first = Some p) ∧
  (∀ p tasks later, promises w' !! p = Some (Fulfilled tasks) →
     promises (run posixJoin later w') !! p = Some (Fulfilled tasks)) ∧
  (∀ root reply, snakemakePromise w = None →
     rootPath (host w) = Some root → truthy root = true →
     let p := length (promises w) in
     children (host (run posixJoin [ExistsCallback p true; ExecCallback p reply]
                       (snd (provideTasks posixJoin (snd first)))))
     = children (host w) ++ [("snakemake --list", {| cwd := root |})]).
Proof.
  apply (requests_share_discovery posixJoin
           (activate posixJoin (worldAt (Some "/w")))
           [ExistsCallback 0 true; ProvideTasks]).
  - constructor.
  - reflexivity.
Defined.

(** C5 fails as stated: after the notification that the file was deleted,
    the next request starts a discovery that finds no file and ends with no
    task; no second child process is started. *)
Lemma request_after_delete_starts_no_process :
  let cached := run posixJoin
                  [ProvideTasks; ExistsCallback 0 true;
                   ExecCallback 0 (succeeded exampleStdout "")]
                  (activate posixJoin (worldAt (Some "/w"))) in
  let w := run posixJoin [FsEvent Deleted; ProvideTasks; ExistsCallback 1 false] cached in
  snakemakePromise cached = Some 0 ∧
  length (children (host cached)) = 1 ∧
  snakemakePromise w = Some 1 ∧
  promises w !! 1 = Some (Fulfilled []) ∧
  children (host w) = children (host cached).
Proof. by vm_compute. Qed.

Lemma notification_empties_cache_witness :
  let w := run posixJoin
             [ProvideTasks; ExistsCallback 0 true;
              ExecCallback 0 (succeeded exampleStdout "")]
             (activate posixJoin (worldAt (Some "/w"))) in
  let w1 := handle posixJoin (FsEvent Changed) w in
  let w2 := handle posixJoin ProvideTasks w1 in
  snakemakePromise w = Some 0 ∧
  snakemakePromise w1 = None ∧
  provideTasks posixJoin w1 = (Some 1, w2) ∧
  children (host (handle posixJoin (ExistsCallback 1 true) w2)) =
    children (host w) ++ [("snakemake --list", {| cwd := "/w" |})].
Proof.
  split; [reflexivity|].
  pose proof (notification_empties_cache posixJoin (worldAt (Some "/w")) "/w"
                [ProvideTasks; ExistsCallback 0 true;
                 ExecCallback 0 (succeeded exampleStdout "")]
                Changed eq_refl eq_refl) as H.
  cbv zeta in H.
  destruct H as (H1 & _ & _ & H4 & _ & _ & H7 & _).
  split; [exact H1|]. split; [exact H4|].
  exact (proj1 (proj2 (proj2 (H7 "/w" eq_refl eq_refl)))).
Defined.

Lemma no_snakefile_no_tasks_witness :
  let h := hostAt (Some "/w") in
  let reply := succeeded exampleStdout "" in
  fst (discover posixJoin false reply h) = Fulfilled [] ∧
  children (snd (discover posixJoin false reply h)) = [] ∧
  _channel (snd (discover posixJoin false reply h)) = None ∧
  snd (discover posixJoin false reply h) = fsExists "/w/Snakefile" h.
Proof.
  destruct (no_snakefile_no_tasks posixJoin (succeeded exampleStdout "")
              (hostAt (Some "/w"))) as (H1 & H2 & H3 & H4).
  split; [exact H1|]. split; [exact H2|]. split; [exact H3|].
  exact (H4 "/w" eq_refl eq_refl).
Defined.

Lemma task_names_are_lines_witness :
  let ls := [("build_all", CrLf); ("", Bare); (" run tests  ", Bare)] in
  let stdout := unlines ls "cleanup" in
  split stdout = ["build_all"; ""; " run tests  "; "cleanup"] ∧
  map name (tasksOfStdout stdout) = ["build_all"; " run tests  "; "cleanup"] ∧
  tasksOfStdout (unlines [("", Bare); ("", CrLf); ("", Bare)] "") = [].
Proof.
  destruct (task_names_are_lines posixJoin
              (unlines [("build_all", CrLf); ("", Bare); (" run tests  ", Bare)] "cleanup")
              [("build_all", CrLf); ("", Bare); (" run tests  ", Bare)] "cleanup"
              [Bare; CrLf; Bare] eq_refl eq_refl) as (_ & H2 & H3 & H4 & _).
  split; [exact H2|]. split; [exact H3|]. exact H4.
Defined.

Lemma stderr_is_advisory_witness :
  let h := hostAt (Some "/w") in
  execCallback (succeeded exampleStdout "warning") Unsettled =
    ResolvedWith (Resolved.mk exampleStdout "warning") ∧
  fst (discover posixJoin true (succeeded exampleStdout "warning") h) =
    Fulfilled (tasksOfStdout exampleStdout) ∧
  channelLog (snd (discover posixJoin true (succeeded exampleStdout "warning") h)) =
    [appendLine "warning"; show true].
Proof.
  destruct (stderr_is_advisory posixJoin (hostAt (Some "/w")) "/w" exampleStdout
              "warning" eq_refl eq_refl) as (H1 & _ & H3 & _ & H5).
  split; [exact H1|]. split; [exact H3|]. exact H5.
Defined.

Lemma root_is_read_by_each_discovery_witness :
  let w := worldAt (Some "/w") in
  let w1 := handle posixJoin (WorkspaceRoot None) (activate posixJoin w) in
  let w2 := snd (provideTasks posixJoin w1) in
  promises w2 = [Fulfilled []] ∧ host w2 = host w1 ∧
  activate posixJoin (worldAt None) = worldAt None.
Proof.
  destruct (root_is_read_by_each_discovery posixJoin (worldAt (Some "/w")) None eq_refl)
    as (_ & [H2 _] & _).
  destruct (root_is_read_by_each_discovery posixJoin (worldAt None) None eq_refl)
    as (_ & _ & H3).
  destruct (H2 eq_refl) as [Hp Hh].
  split; [exact Hp|]. split; [exact Hh|]. exact (H3 eq_refl).
Defined.

Lemma command_of_task_witness :
  let stdout := unlines [("all", Bare); ("my rule", CrLf)] "" in
  map (λ t, (name t, commandLine (execution t))) (tasksOfStdout stdout) =
    [("all", "snakemake all"); ("my rule", "snakemake my rule")] ∧
  Forall (λ t, commandLine (execution t) = "snakemake " +:+ name t)
    (tasksOfStdout stdout).
Proof.
  destruct (command_of_task posixJoin (unlines [("all", Bare); ("my rule", CrLf)] ""))
    as (H1 & _ & H3).
  split; [exact H1|].
  apply (H3 true (succeeded (unlines [("all", Bare); ("my rule", CrLf)] "") "")
           (hostAt (Some "/w"))).
  reflexivity.
Defined.

(** The command is the line as it stands, also when a shell would read
    more than a name in it. *)
Example command_is_not_quoted :
  map (λ t, commandLine (execution t))
    (tasksOfStdout (unlines [("all; echo $HOME", Bare); ("my rule", CrLf)] ""))
  = ["snakemake all; echo $HOME"; "snakemake my rule"].
Proof. reflexivity. Qed.

(** ** More about [split] *)

Lemma noLineFeed_append (a b : string) :
  noLineFeed (a +:+ b) = noLineFeed a && noLineFeed b.
Proof.
  induction a as [|c a IH]; simpl; [done|]. by rewrite IH, andb_assoc.
Qed.

(** Where the separator does not match, the text does not start with a
    line feed. *)
Lemma matchLineBreak_no_break (c : ascii) (rest : string) :
  (∀ n, matchLineBreak (String c rest) ≠ Some (S n)) → bool_decide (c = LF) = false.
Proof.
  intros Hno. simpl in Hno.
  destruct (bool_decide (c = LF)) eqn:Hlf; [|done]. exfalso.
  apply bool_decide_eq_true in Hlf as ->.
  rewrite bool_decide_eq_false_2 in Hno by done. simpl in Hno. by apply (Hno 0).
Qed.

(** What the separator can be: a line feed alone, or a carriage return and
    a line feed. *)
Lemma matchLineBreak_some (c : ascii) (rest : string) (n : nat) :
  matchLineBreak (String c rest) = Some n →
  (n = 1 ∧ c = LF) ∨ (n = 2 ∧ c = CR ∧ ∃ rest', rest = String LF rest').
Proof.
  simpl. destruct (bool_decide (c = CR)) eqn:Hcr.
  - apply bool_decide_eq_true in Hcr as ->.
    destruct rest as [|d rest']; [done|].
    destruct (bool_decide (d = LF)) eqn:Hlf; [|done].
    apply bool_decide_eq_true in Hlf as ->. intros [= <-]. right. eauto.
  - destruct (bool_decide (c = LF)) eqn:Hlf; [|done].
    apply bool_decide_eq_true in Hlf as ->. intros [= <-]. by left.
Qed.

Lemma splitFrom_noLineFeed (skip : nat) (piece s : string) :
  noLineFeed piece = true →
  Forall (λ l, noLineFeed l = true) (splitFrom skip piece s).
Proof.
  revert skip piece. induction s as [|c rest IH]; intros skip piece Hpiece.
  - by constructor.
  - cbn [splitFrom]. destruct skip as [|n]; [|by apply IH].
    destruct (matchLineBreak (String c rest)) as [[|n]|] eqn:Hm.
    + apply IH. rewrite noLineFeed_append, Hpiece. simpl.
      rewrite (matchLineBreak_no_break c rest); [done|]. intros n. by rewrite Hm.
    + constructor; [done | by apply IH].
    + apply IH. rewrite noLineFeed_append, Hpiece. simpl.
      rewrite (matchLineBreak_no_break c rest); [done|]. intros n. by rewrite Hm.
Qed.

Lemma splitFrom_length (skip : nat) (piece s : string) :
  length (splitFrom skip piece s) = S (countLF (dropChars skip s)).
Proof.
  revert skip piece. induction s as [|c rest IH]; intros skip piece.
  - by destruct skip.
  - cbn [splitFrom]. destruct skip as [|n]; [|by rewrite IH].
    destruct (matchLineBreak (String c rest)) as [[|n]|] eqn:Hm.
    + apply matchLineBreak_some in Hm as [[? _]|[? _]]; lia.
    + apply matchLineBreak_some in Hm as [[[= ->] ->]|([= ->] & -> & rest' & ->)];
        cbn [length]; rewrite IH; simpl; by rewrite ?bool_decide_eq_true_2.
    + rewrite IH. simpl. rewrite (matchLineBreak_no_break c rest); [done|].
      intros n. by rewrite Hm.
Qed.

(** The separator at the head of a text is the same when a line ending
    follows the text, but for a carriage return at its end before a bare
    line feed. *)
Lemma matchLineBreak_before_eol (c : ascii) (rest t : string) (e : Eol) :
  (e = Bare → endsWithCR (String c rest) = false) →
  matchLineBreak (String c (rest +:+ eolText e +:+ t)) = matchLineBreak (String c rest).
Proof.
  intros He. destruct rest as [|d rest]; [|done].
  simpl. destruct (bool_decide (c = CR)) eqn:Hcr; [|done].
  destruct e; simpl; [|done]. specialize (He eq_refl). simpl in He. congruence.
Qed.

Lemma endsWithCR_tail (c : ascii) (rest : string) :
  endsWithCR (String c rest) = false → endsWithCR rest = false.
Proof. by destruct rest. Qed.

Lemma splitFrom_before_eol (skip : nat) (piece s t : string) (e : Eol) :
  (e = Bare → endsWithCR s = false) →
  skip = 0 ∨ (skip = 1 ∧ ∃ s', s = String LF s') →
  splitFrom skip piece (s +:+ eolText e +:+ t) =
    splitFrom skip piece s ++ splitFrom 0 EmptyString t.
Proof.
  revert skip piece. induction s as [|c rest IH]; intros skip piece He Hskip.
  - destruct Hskip as [->|[_ [s' [=]]]]. by destruct e.
  - change (String c rest +:+ eolText e +:+ t)
      with (String c (rest +:+ eolText e +:+ t)).
    assert (e = Bare → endsWithCR rest = false) as He'
      by (intros Hb; by apply (endsWithCR_tail c), He).
    cbn [splitFrom]. destruct Hskip as [->|(-> & s' & [= -> ->])].
    + rewrite matchLineBreak_before_eol by done.
      destruct (matchLineBreak (String c rest)) as [[|n]|] eqn:Hm.
      * by apply IH; [|left].
      * apply matchLineBreak_some in Hm as [[[= ->] ->]|([= ->] & -> & rest' & ->)].
        -- rewrite IH by (done || by left). done.
        -- rewrite IH by (done || right; eauto). done.
      * by apply IH; [|left].
    + by apply IH; [|left].
Qed.

Lemma contains_inside (s pat before after : string) :
  contains s pat → contains (before +:+ s +:+ after) pat.
Proof.
  intros (x & y & ->). exists (before +:+ x), (y +:+ after).
  by rewrite !append_assoc.
Qed.

Lemma contains_empty (pat : string) :
  contains EmptyString pat → pat = EmptyString.
Proof.
  intros (x & y & Heq). symmetry in Heq.
  apply append_empty_inv in Heq as [_ Heq].
  by apply append_empty_inv in Heq as [-> _].
Qed.

Section Names.

Variable join : string → string → string.

(** X1: the name of a task is never empty and has no line feed in it. *)
Theorem task_names_are_single_lines (fileExists : bool) (reply : ExecReply)
    (h : Host) (tasks : list Task) :
  fst (discover join fileExists reply h) = Fulfilled tasks →
  Forall (λ t, name t ≠ EmptyString ∧ noLineFeed (name t) = true) tasks.
Proof.
  intros [->| ->]%discover_tasks; [constructor|].
  rewrite tasksOfStdout_lines. apply Forall_map, Forall_forall.
  intros line [Hne Hin]%list_elem_of_filter. simpl. split.
  - intros ->. done.
  - pose proof (splitFrom_noLineFeed 0 EmptyString (replyStdout reply) eq_refl) as Hall.
    by apply (proj1 (Forall_forall _ _) Hall).
Qed.

(** X2: [split] gives one piece more than the text has line feeds, so an
    output with [n] line feeds gives at most [n + 1] tasks, and an output
    without any at most one. *)
Theorem tasks_bounded_by_line_feeds (stdout : string) :
  length (split stdout) = S (countLF stdout) ∧
  length (tasksOfStdout stdout) ≤ S (countLF stdout) ∧
  (∀ fileExists reply h tasks,
     fst (discover join fileExists reply h) = Fulfilled tasks →
     length tasks ≤ S (countLF (replyStdout reply))).
Proof.
  assert (∀ s, length (tasksOfStdout s) ≤ S (countLF s)) as Hbound.
  { intros s. rewrite tasksOfStdout_lines, length_map.
    etrans; [apply length_filter|]. unfold split. by rewrite splitFrom_length. }
  split; [unfold split; by rewrite splitFrom_length|]. split; [done|].
  intros fileExists reply h tasks [->| ->]%discover_tasks; [simpl; lia | done].
Qed.

(** X3: the tasks of two outputs joined by a line ending are the tasks of
    the first and then those of the second.  With a bare line feed the first
    must not end in a carriage return, which would become part of the line
    ending. *)
Theorem tasks_of_joined_outputs (s t : string) (e : Eol) :
  (e = Bare → endsWithCR s = false) →
  split (s +:+ eolText e +:+ t) = split s ++ split t ∧
  tasksOfStdout (s +:+ eolText e +:+ t) = tasksOfStdout s ++ tasksOfStdout t.
Proof.
  intros He.
  assert (split (s +:+ eolText e +:+ t) = split s ++ split t) as Hsplit
    by (unfold split; apply splitFrom_before_eol; [done | by left]).
  split; [done|].
  by rewrite !tasksOfStdout_lines, Hsplit, filter_app, map_app.
Qed.

(** X4: a name that has the name of a build task in it is the name of a
    build task, and likewise for test tasks; the empty name is neither. *)
Theorem task_kind_of_longer_name (name before after : string) :
  (isBuildTask name = true → isBuildTask (before +:+ name +:+ after) = true) ∧
  (isTestTask name = true → isTestTask (before +:+ name +:+ after) = true) ∧
  isBuildTask EmptyString = false ∧ isTestTask EmptyString = false.
Proof.
  split; [|split; [|done]].
  - rewrite !isBuildTask_true.
    intros [H|[H|H]]; eauto using contains_inside.
  - rewrite !isTestTask_true. apply contains_inside.
Qed.

End Names.

Lemma task_names_are_single_lines_witness :
  Forall (λ t, name t ≠ EmptyString ∧ noLineFeed (name t) = true)
    (tasksOfStdout exampleStdout).
Proof.
  apply (task_names_are_single_lines posixJoin true (succeeded exampleStdout "")
           (hostAt (Some "/w"))).
  reflexivity.
Defined.

Lemma tasks_of_joined_outputs_witness :
  let s := unlines [("all", Bare)] "lint" in
  let t := unlines [("clean", CrLf)] "" in
  map name (tasksOfStdout (s +:+ eolText Bare +:+ t)) = ["all"; "lint"; "clean"] ∧
  tasksOfStdout (s +:+ eolText Bare +:+ t) = tasksOfStdout s ++ tasksOfStdout t.
Proof.
  split; [reflexivity|].
  apply (tasks_of_joined_outputs (unlines [("all", Bare)] "lint")
           (unlines [("clean", CrLf)] "") Bare).
  reflexivity.
Defined.

(** ** What a discovery does to the host *)

Lemma existsCalls_afterSuccess (stderr : string) (h : Host) :
  existsCalls (afterSuccess stderr h) = existsCalls h ∧
  rootPath (afterSuccess stderr h) = rootPath h.
Proof. by destruct stderr, h as [? [?|] ? ?]. Qed.

Lemma existsCalls_afterFailure (stdout stderr : string) (h : Host) :
  existsCalls (afterFailure stdout stderr h) = existsCalls h ∧
  rootPath (afterFailure stdout stderr h) = rootPath h.
Proof. by destruct stdout, stderr, h as [? [?|] ? ?]. Qed.

Lemma channelGrows_refl (h : Host) : channelGrows h h.
Proof.
  unfold channelGrows. destruct (_channel h) as [[n ops]|]; [|by left].
  exists []. by rewrite app_nil_r.
Qed.

Lemma channelGrows_trans (h1 h2 h3 : Host) :
  channelGrows h1 h2 → channelGrows h2 h3 → channelGrows h1 h3.
Proof.
  unfold channelGrows. destruct (_channel h1) as [c1|].
  - intros [ops ->] [ops' ->]. simpl. exists (ops ++ ops'). by rewrite app_assoc.
  - intros [->|[ops ->]]; [done|]. intros [ops' ->]. right. by eexists.
Qed.

Lemma channelGrows_same (h h' : Host) : _channel h' = _channel h → channelGrows h h'.
Proof.
  intros Hc. unfold channelGrows. rewrite Hc.
  destruct (_channel h) as [[n ops]|]; [|by left].
  exists []. by rewrite app_nil_r.
Qed.

Lemma channelGrows_afterSuccess (stderr : string) (h : Host) :
  channelGrows h (afterSuccess stderr h).
Proof.
  unfold channelGrows, afterSuccess.
  destruct stderr as [|c s], h as [? [[n ops]|] ? ?]; cbn.
  - exists []. by rewrite app_nil_r.
  - by left.
  - exists [appendLine (String c s); show true]. by rewrite <- app_assoc.
  - right. by eexists.
Qed.

Lemma channelGrows_afterFailure (stdout stderr : string) (h : Host) :
  channelGrows h (afterFailure stdout stderr h).
Proof.
  unfold channelGrows, afterFailure.
  destruct stdout, stderr, h as [? [[n ops]|] ? ?]; cbn;
    try (right; by eexists); rewrite <- ?app_assoc; by eexists.
Qed.

Section Effects.

Variable join : string → string → string.

(** X5: a discovery leaves the workspace root alone.  It checks for the
    [Snakefile] of the root once when there is a root, and not at all
    without one; it starts [snakemake --list] in the root once when there is a
    root and the file is there, and never otherwise. *)
Theorem discovery_effects (fileExists : bool) (reply : ExecReply) (h : Host) :
  let h' := snd (discover join fileExists reply h) in
  rootPath h' = rootPath h ∧
  existsCalls h' =
    existsCalls h ++
    match rootPath h with
    | Some root => if truthy root then [join root "Snakefile"] else []
    | None => []
    end ∧
  children h' =
    children h ++
    match rootPath h with
    | Some root =>
        if truthy root && fileExists
        then [("snakemake --list", {| cwd := root |})] else []
    | None => []
    end ∧
  channelGrows h h'.
Proof.
  cbv zeta. destruct (falsy (rootPath h)) eqn:Hroot.
  - rewrite discover_no_root by done. cbn [snd].
    destruct (rootPath h) as [root|]; simpl in *.
    + apply negb_true_iff in Hroot. rewrite Hroot. simpl.
      rewrite !app_nil_r. repeat split; try done. apply channelGrows_refl.
    + rewrite !app_nil_r. repeat split; try done. apply channelGrows_refl.
  - destruct (rootPath h) as [root|] eqn:Hr; [|done].
    apply negb_false_iff in Hroot.
    rewrite (discover_root _ _ _ _ root) by done. rewrite Hroot.
    destruct fileExists; cbn [andb snd].
    + destruct (replyError reply); cbn [snd].
      * rewrite children_afterFailure.
        destruct (existsCalls_afterFailure (replyStdout reply) (replyStderr reply)
                    (cpExec "snakemake --list" {| cwd := root |}
                       (fsExists (join root "Snakefile") h))) as [-> ->].
        repeat split; try done.
        eapply channelGrows_trans; [|apply channelGrows_afterFailure].
        by apply channelGrows_same.
      * rewrite children_afterSuccess.
        destruct (existsCalls_afterSuccess (replyStderr reply)
                    (cpExec "snakemake --list" {| cwd := root |}
                       (fsExists (join root "Snakefile") h))) as [-> ->].
        repeat split; try done.
        eapply channelGrows_trans; [|apply channelGrows_afterSuccess].
        by apply channelGrows_same.
    + simpl. rewrite app_nil_r. repeat split; try done. by apply channelGrows_same.
Qed.

(** What the steps of a discovery do to the output channel. *)
Lemma handle_channelGrows (e : Event) (w : World) :
  Forall passState (promises w) →
  channelGrows (host w) (host (handle join e w)).
Proof.
  intros Hall. destruct e as [|kind|p value|p reply|r]; unfold handle.
  - destruct (taskProvider w); [|apply channelGrows_refl].
    destruct (snakemakePromise w) as [q|] eqn:Hq.
    + rewrite (provideTasks_cached join w q) by done. apply channelGrows_refl.
    + rewrite provideTasks_empty by done. cbn [snd].
      destruct (startDiscovery_fields join w) as (-> & _).
      destruct (getSnakemakeTasks_start join (host w))
        as [[_ ->]|(root & k & _ & _ & -> & _)]; by apply channelGrows_same.
  - destruct (fsEvent_fields kind w) as (-> & _). apply channelGrows_refl.
  - destruct (promises w !! p) as [st|] eqn:Hp;
      [|rewrite resumeExists_other by congruence; apply channelGrows_refl].
    destruct st as [| | |k|];
      try (rewrite resumeExists_other by congruence; apply channelGrows_refl).
    destruct (resumeExists_fields p value w k Hp) as (-> & _).
    destruct (proj1 (Forall_lookup _ _) Hall p _ Hp) as (root & Hfalse & Htrue).
    destruct value.
    + destruct (Htrue (host w)) as (k' & -> & _). by apply channelGrows_same.
    + rewrite Hfalse. apply channelGrows_refl.
  - destruct (promises w !! p) as [st|] eqn:Hp;
      [|rewrite resumeExec_other by congruence; apply channelGrows_refl].
    destruct st as [| | | |k];
      try (rewrite resumeExec_other by congruence; apply channelGrows_refl).
    destruct (resumeExec_fields p reply w k Hp) as (-> & _).
    destruct (proj1 (Forall_lookup _ _) Hall p _ Hp) as (root & Hk).
    rewrite Hk. destruct (replyError reply); cbn [snd].
    + apply channelGrows_afterFailure.
    + apply channelGrows_afterSuccess.
  - by apply channelGrows_same.
Qed.

(** X6: the output channel is made once, under the name
    ["Snakemake Auto Detection"], and from then on it is only written to:
    whatever happens, it keeps its name and what it showed before. *)
Theorem output_channel_only_grows (events : list Event) (w : World) :
  Forall passState (promises w) →
  channelGrows (host w) (host (run join events w)) ∧
  (∀ c, _channel (host w) = Some c →
     ∃ ops, channelLog (host (run join events w)) = channelOps c ++ ops).
Proof.
  intros Hall.
  assert (channelGrows (host w) (host (run join events w))) as Hgrows.
  { unfold run. revert w Hall.
    induction events as [|e events IH]; intros w Hall; simpl.
    - apply channelGrows_refl.
    - eapply channelGrows_trans; [by apply handle_channelGrows|].
      by apply IH, handle_passState. }
  split; [done|]. intros c Hc. unfold channelGrows in Hgrows. rewrite Hc in Hgrows.
  destruct Hgrows as [ops Hops]. exists ops. unfold channelLog. by rewrite Hops.
Qed.

End Effects.

Lemma output_channel_only_grows_witness :
  let w := run posixJoin
             [ProvideTasks; ExistsCallback 0 true;
              ExecCallback 0 (succeeded exampleStdout "warning")]
             (activate posixJoin (worldAt (Some "/w"))) in
  let w' := run posixJoin
              [FsEvent Changed; ProvideTasks; ExistsCallback 1 true;
               ExecCallback 1 (failed (ExitCode 1) "" "no rule")] w in
  channelLog (host w) = [appendLine "warning"; show true] ∧
  channelGrows (host w) (host w') ∧
  ∃ ops, channelLog (host w') = [appendLine "warning"; show true] ++ ops.
Proof.
  split; [reflexivity|].
  destruct (output_channel_only_grows posixJoin
              [FsEvent Changed; ProvideTasks; ExistsCallback 1 true;
               ExecCallback 1 (failed (ExitCode 1) "" "no rule")]
              (run posixJoin
                 [ProvideTasks; ExistsCallback 0 true;
                  ExecCallback 0 (succeeded exampleStdout "warning")]
                 (activate posixJoin (worldAt (Some "/w")))))
    as [H1 H2].
  - repeat constructor.
  - split; [exact H1|]. exact (H2 _ eq_refl).
Defined.

(** ** What the extension never does *)

Section Never.

Variable join : string → string → string.

Lemma checkedState_passState (h : Host) (st : PromiseState (list Task)) :
  checkedState join h st → passState st.
Proof. destruct st; simpl; try done. intros (root & _ & _ & Hk). eauto. Qed.

Lemma hostInvariant_passState (w : World) :
  hostInvariant join w → Forall passState (promises w).
Proof.
  intros (Hst & _). eapply Forall_impl; [exact Hst|].
  intros st. apply checkedState_passState.
Qed.

(** The invariant looks at the file checks and the child processes only,
    and more file checks do not break it. *)
Lemma checkedState_more (h h' : Host) (st : PromiseState (list Task)) :
  (∀ f, f ∈ existsCalls h → f ∈ existsCalls h') →
  checkedState join h st → checkedState join h' st.
Proof.
  intros Hsub. destruct st; simpl; try done.
  intros (root & ? & ? & ?). exists root. auto.
Qed.

Lemma listingChild_more (h h' : Host) (child : string * ExecOptions) :
  (∀ f, f ∈ existsCalls h → f ∈ existsCalls h') →
  listingChild join h child → listingChild join h' child.
Proof. intros Hsub (? & ? & ?). repeat split; auto. Qed.

Lemma hostInvariant_start (w : World) :
  hostInvariant join w → hostInvariant join (startDiscovery join w).
Proof.
  intros (Hst & Hch & Hex & Hn & Hm). unfold hostInvariant.
  destruct (startDiscovery_fields join w) as (-> & -> & _).
  destruct (getSnakemakeTasks_start join (host w))
    as [[_ ->]|(root & k & Hroot & Htruthy & -> & Hk)]; cbn [fst snd].
  - rewrite countWhere_app, length_app. simpl.
    repeat split; try done; [|lia..].
    apply Forall_app. split; [done | by repeat constructor].
  - assert (∀ f, f ∈ existsCalls (host w) →
                 f ∈ existsCalls (fsExists (join root "Snakefile") (host w)))
      as Hsub by (intros f Hf; simpl; apply elem_of_app; by left).
    rewrite countWhere_app, length_app. simpl. rewrite length_app. simpl.
    repeat split; [| | |lia..].
    + apply Forall_app. split.
      * eapply Forall_impl; [exact Hst|]. intros st. by apply checkedState_more.
      * apply Forall_singleton. exists root. repeat split; try done; try apply Hk.
        apply elem_of_app. right. by apply list_elem_of_singleton.
    + eapply Forall_impl; [exact Hch|]. intros c. by apply listingChild_more.
    + apply Forall_app. split; [done|]. apply Forall_singleton. by exists root.
Qed.

Lemma hostInvariant_handle (e : Event) (w : World) :
  hostInvariant join w → hostInvariant join (handle join e w).
Proof.
  intros Hinv. destruct e as [|kind|p value|p reply|r]; unfold handle.
  - destruct (taskProvider w); [|done].
    destruct (snakemakePromise w) as [q|] eqn:Hq.
    + by rewrite (provideTasks_cached join w q).
    + rewrite provideTasks_empty by done. by apply hostInvariant_start.
  - unfold hostInvariant.
    by destruct (fsEvent_fields kind w) as (-> & -> & _).
  - destruct (promises w !! p) as [st|] eqn:Hp;
      [|by rewrite resumeExists_other by congruence].
    destruct st as [| | |k|]; try by rewrite resumeExists_other by congruence.
    destruct Hinv as (Hst & Hch & Hex & Hn & Hm). unfold hostInvariant.
    destruct (resumeExists_fields p value w k Hp) as (-> & -> & _).
    destruct (proj1 (Forall_lookup _ _) Hst p _ Hp)
      as (root & Htruthy & Hin & Hfalse & Htrue).
    rewrite length_insert. destruct value.
    + destruct (Htrue (host w)) as (k' & -> & Hk'). cbn [fst snd].
      pose proof (countWhere_insert awaitsExists _ _ (AwaitingExec k') _ Hp) as Hc.
      simpl in Hc. simpl. rewrite length_app. simpl.
      repeat split; try done; [| |lia].
      * apply Forall_insert; [done|]. simpl. eauto.
      * apply Forall_app. split; [done|]. by apply Forall_singleton.
    + rewrite Hfalse. cbn [fst snd].
      pose proof (countWhere_insert awaitsExists _ _ (Fulfilled []) _ Hp) as Hc.
      simpl in Hc. repeat split; try done; [|lia].
      by apply Forall_insert.
  - destruct (promises w !! p) as [st|] eqn:Hp;
      [|by rewrite resumeExec_other by congruence].
    destruct st as [| | | |k]; try by rewrite resumeExec_other by congruence.
    destruct Hinv as (Hst & Hch & Hex & Hn & Hm). unfold hostInvariant.
    destruct (resumeExec_fields p reply w k Hp) as (-> & -> & _).
    destruct (proj1 (Forall_lookup _ _) Hst p _ Hp) as (root & Hk).
    rewrite Hk, length_insert.
    assert (∀ st' h', existsCalls h' = existsCalls (host w) →
              children h' = children (host w) → (∃ tasks, st' = Fulfilled tasks) →
              Forall (checkedState join h') (<[p:=st']> (promises w)) ∧
              Forall (listingChild join h') (children h') ∧
              Forall (snakefileCheck join) (existsCalls h') ∧
              length (children h') + countWhere awaitsExists (<[p:=st']> (promises w))
                ≤ length (existsCalls h') ∧
              length (existsCalls h') ≤ length (promises w)) as Hsame.
    { intros st' h' He Hc [tasks ->].
      pose proof (countWhere_insert awaitsExists _ _ (Fulfilled tasks) _ Hp) as Hcount.
      simpl in Hcount. rewrite He, Hc. repeat split; try done; [| |lia].
      - apply Forall_insert; [|done].
        eapply Forall_impl; [exact Hst|]. intros st.
        apply checkedState_more. by rewrite He.
      - eapply Forall_impl; [exact Hch|]. intros c.
        apply listingChild_more. by rewrite He. }
    destruct (replyError reply); cbn [fst snd]; apply Hsame; eauto;
      first [apply existsCalls_afterFailure | apply children_afterFailure
            | apply existsCalls_afterSuccess | apply children_afterSuccess].
  - done.
Qed.

Lemma hostInvariant_run (events : list Event) (w : World) :
  hostInvariant join w → hostInvariant join (run join events w).
Proof.
  unfold run. revert w. induction events as [|e events IH]; intros w Hinv; [done|].
  simpl. by apply IH, hostInvariant_handle.
Qed.

Lemma hostInvariant_fresh (w : World) :
  promises w = [] → children (host w) = [] → existsCalls (host w) = [] →
  hostInvariant join w.
Proof.
  intros Hp Hc He. unfold hostInvariant. rewrite Hp, Hc, He. simpl.
  repeat split; by try constructor.
Qed.

(** X7: starting from a host without file checks and child processes, all
    the extension ever checks for is the [Snakefile] of a workspace root, and
    all it ever runs is [snakemake --list], in a workspace root whose
    [Snakefile] it has checked for before. *)
Theorem only_snakemake_list_is_run (events : list Event) (w : World) :
  promises w = [] → children (host w) = [] → existsCalls (host w) = [] →
  Forall (listingChild join (host (run join events w)))
    (children (host (run join events w))) ∧
  Forall (snakefileCheck join) (existsCalls (host (run join events w))).
Proof.
  intros Hp Hc He.
  destruct (hostInvariant_run events w (hostInvariant_fresh w Hp Hc He))
    as (_ & Hch & Hex & _). done.
Qed.

(** X8: from such a start there are never more child processes than file
    checks, and never more file checks than discoveries. *)
Theorem processes_checks_discoveries (events : list Event) (w : World) :
  promises w = [] → children (host w) = [] → existsCalls (host w) = [] →
  length (children (host (run join events w)))
    ≤ length (existsCalls (host (run join events w))) ∧
  length (existsCalls (host (run join events w)))
    ≤ length (promises (run join events w)).
Proof.
  intros Hp Hc He.
  destruct (hostInvariant_run events w (hostInvariant_fresh w Hp Hc He))
    as (_ & _ & _ & Hn & Hm). split; [lia | done].
Qed.

End Never.

(** ** More about requests, callbacks and notifications *)

Section Promises.

Variable join : string → string → string.

Lemma slotValid_handle (e : Event) (w : World) :
  slotValid w → slotValid (handle join e w).
Proof.
  intros Hv. destruct e as [|kind|p value|p reply|r]; unfold handle.
  - destruct (taskProvider w); [|done].
    destruct (snakemakePromise w) as [q|] eqn:Hq.
    + by rewrite (provideTasks_cached join w q).
    + rewrite provideTasks_empty by done. cbn [snd]. unfold slotValid.
      destruct (startDiscovery_fields join w) as (_ & -> & -> & _).
      intros p [= <-]. rewrite length_app. simpl. lia.
  - unfold slotValid.
    destruct (fsEvent_fields kind w) as (_ & -> & _ & _ & [->| ->]); done.
  - destruct (promises w !! p) as [st|] eqn:Hp;
      [|by rewrite resumeExists_other by congruence].
    destruct st as [| | |k|]; try by rewrite resumeExists_other by congruence.
    unfold slotValid.
    destruct (resumeExists_fields p value w k Hp) as (_ & -> & ->).
    by rewrite length_insert.
  - destruct (promises w !! p) as [st|] eqn:Hp;
      [|by rewrite resumeExec_other by congruence].
    destruct st as [| | | |k]; try by rewrite resumeExec_other by congruence.
    unfold slotValid.
    destruct (resumeExec_fields p reply w k Hp) as (_ & -> & ->).
    by rewrite length_insert.
  - done.
Qed.

Lemma slotValid_run (events : list Event) (w : World) :
  slotValid w → slotValid (run join events w).
Proof.
  unfold run. revert w. induction events as [|e events IH]; intros w Hv; [done|].
  simpl. by apply IH, slotValid_handle.
Qed.

Lemma passState_cases (st : PromiseState (list Task)) :
  passState st → inFlight st = true ∨ ∃ tasks, st = Fulfilled tasks.
Proof. destruct st; simpl; eauto; done. Qed.

(** X9: whatever has happened since a start without promises, a request
    returns a promise that there is, and that promise is on its way or
    fulfilled: never rejected, never one that nothing will settle. *)
Theorem request_returns_live_promise (events : list Event) (w : World) :
  promises w = [] → snakemakePromise w = None →
  let w' := run join events w in
  ∃ p st, fst (provideTasks join w') = Some p ∧
          promises (snd (provideTasks join w')) !! p = Some st ∧
          (inFlight st = true ∨ ∃ tasks, st = Fulfilled tasks).
Proof.
  intros Hnone Hslot. cbv zeta.
  assert (Forall passState (promises (run join events w))) as Hall
    by (apply run_passState; by rewrite Hnone).
  assert (slotValid (run join events w)) as Hv
    by (apply slotValid_run; intros p; by rewrite Hslot).
  set (w' := run join events w) in *.
  destruct (snakemakePromise w') as [p|] eqn:Hp.
  - rewrite (provideTasks_cached join w' p) by done. cbn [fst snd].
    destruct (lookup_lt_is_Some_2 (promises w') p (Hv p Hp)) as [st Hst].
    exists p, st. repeat split; try done.
    apply passState_cases. by apply (proj1 (Forall_lookup _ _) Hall p).
  - rewrite provideTasks_empty by done. cbn [fst snd].
    destruct (startDiscovery_fields join w') as (_ & -> & _).
    eexists _, _. split; [done|]. split; [by apply list_lookup_middle|].
    apply passState_cases, passState_start.
Qed.

(** X10: a discovery on its way is fulfilled once its callbacks have come,
    whatever they report: the file check and then the end of the child
    process are all it waits for. *)
Theorem callbacks_fulfil_discovery (w : World) (p : nat)
    (st : PromiseState (list Task)) (value : bool) (reply : ExecReply) :
  Forall passState (promises w) → promises w !! p = Some st →
  ∃ tasks,
    promises (run join [ExistsCallback p value; ExecCallback p reply] w) !! p
    = Some (Fulfilled tasks).
Proof.
  intros Hall Hp. cbn [run foldl handle].
  pose proof (proj1 (Forall_lookup _ _) Hall p _ Hp) as Hst.
  assert (p < length (promises w)) as Hlt by (by eapply lookup_lt_Some).
  assert (∀ w1 k, promises w1 !! p = Some (AwaitingExec k) →
            (∃ root, execCont root k) →
            ∃ tasks, promises (resumeExec p reply w1) !! p = Some (Fulfilled tasks))
    as Hexec.
  { intros w1 k Hk [root Hcont].
    destruct (resumeExec_fields p reply w1 k Hk) as (_ & -> & _).
    rewrite Hcont, list_lookup_insert_eq by (by eapply lookup_lt_Some).
    destruct (replyError reply); by eexists. }
  destruct st as [tasks| | |k|k]; try done.
  - rewrite resumeExists_other by congruence.
    rewrite resumeExec_other by congruence. by exists tasks.
  - destruct Hst as (root & Hfalse & Htrue).
    destruct (resumeExists_fields p value w k Hp) as (_ & Hpr & _).
    destruct value.
    + destruct (Htrue (host w)) as (k' & Hk' & Hcont).
      rewrite Hk' in Hpr. cbn [fst] in Hpr.
      apply (Hexec _ k'); [|eauto].
      rewrite Hpr. by apply list_lookup_insert_eq.
    + rewrite Hfalse in Hpr. cbn [fst] in Hpr.
      assert (promises (resumeExists p false w) !! p = Some (Fulfilled [])) as Hl
        by (rewrite Hpr; by apply list_lookup_insert_eq).
      rewrite resumeExec_other by congruence. by eexists.
  - rewrite resumeExists_other by congruence. by apply (Hexec w k).
Qed.

(** What a callback does depends on the host and the promises only. *)
Lemma handle_same_promises (e : Event) (w w' : World) :
  notRequest e = true → quiet e = true →
  host w = host w' → promises w = promises w' →
  host (handle join e w) = host (handle join e w') ∧
  promises (handle join e w) = promises (handle join e w').
Proof.
  intros Hr Hq Hh Hp. destruct e as [|kind|p value|p reply|r]; try done; unfold handle.
  - unfold resumeExists. rewrite <- Hp, <- Hh.
    destruct (promises w !! p) as [[| | |k|]|]; try done.
    by destruct (runSync (k value) (host w)).
  - unfold resumeExec. rewrite <- Hp, <- Hh.
    destruct (promises w !! p) as [[| | | |k]|]; try done.
    by destruct (runSync (k reply) (host w)).
  - simpl. by rewrite Hh.
Qed.

(** Without a request between them, notifications make no difference to
    the host and the promises. *)
Lemma run_without_notifications (events : list Event) (w w' : World) :
  forallb notRequest events = true →
  host w = host w' → promises w = promises w' →
  host (run join events w) = host (run join (filter (λ e, quiet e = true) events) w') ∧
  promises (run join events w) = promises (run join (filter (λ e, quiet e = true) events) w').
Proof.
  unfold run. revert w w'.
  induction events as [|e events IH]; intros w w' Hr Hh Hp; [done|].
  simpl in Hr. apply andb_prop in Hr as [He Hr]. simpl.
  destruct (quiet e) eqn:Hq.
  - rewrite filter_cons_True by done. simpl.
    destruct (handle_same_promises e w w' He Hq Hh Hp) as [Hh' Hp']. by apply IH.
  - rewrite filter_cons_False by (rewrite Hq; done).
    destruct e as [|kind| | |]; try done. apply IH; [done|..].
    + unfold handle. by destruct (fsEvent_fields kind w) as (-> & _).
    + unfold handle. by destruct (fsEvent_fields kind w) as (_ & -> & _).
Qed.

(** X11: a notification changes nothing but the variable: as long as no
    request comes, the host and all promises end up as if the notifications
    had not come, so discoveries on their way go on undisturbed. *)
Theorem notifications_spare_discoveries (events : list Event) (w : World) :
  forallb notRequest events = true →
  host (run join events w) = host (run join (filter (λ e, quiet e = true) events) w) ∧
  promises (run join events w) =
    promises (run join (filter (λ e, quiet e = true) events) w).
Proof. intros Hr. by apply run_without_notifications. Qed.

(** X12: a discovery whose promise is dropped from the variable while it is
    on its way still ends as [discover] says, for those who hold its
    promise. *)
Theorem dropped_discovery_completes (w : World) (fileExists : bool)
    (reply : ExecReply) (k1 k2 k3 : FsEventKind) :
  snakemakePromise w = None →
  let p := length (promises w) in
  let w' := run join
              [FsEvent k1; ExistsCallback p fileExists; FsEvent k2;
               ExecCallback p reply; FsEvent k3]
              (snd (provideTasks join w)) in
  promises w' !! p = Some (fst (discover join fileExists reply (host w))) ∧
  host w' = snd (discover join fileExists reply (host w)).
Proof.
  intros Hs. cbv zeta.
  destruct (run_without_notifications
              [FsEvent k1; ExistsCallback (length (promises w)) fileExists;
               FsEvent k2; ExecCallback (length (promises w)) reply; FsEvent k3]
              (snd (provideTasks join w)) (snd (provideTasks join w))
              eq_refl eq_refl eq_refl) as [-> ->].
  by apply discovery_by_events.
Qed.

End Promises.

(** ** What is registered, and how often the tool runs *)

Section Registration.

Variable join : string → string → string.

Lemma handle_providers (e : Event) (w : World) :
  providers (handle join e w) = providers w.
Proof.
  destruct e as [|kind|p value|p reply|r]; unfold handle.
  - destruct (taskProvider w); [|done].
    destruct (snakemakePromise w) as [q|] eqn:Hq.
    + by rewrite (provideTasks_cached join w q).
    + rewrite provideTasks_empty by done. cbn [snd].
      by destruct (startDiscovery_fields join w) as (_ & _ & _ & _ & -> & _).
  - unfold fsEvent.
    generalize (concat (map (listeners kind) (watchers w))) as ls.
    intros ls. revert w. induction ls as [|[] ls IH]; intros w; simpl; [done|].
    by rewrite IH.
  - unfold resumeExists. destruct (promises w !! p) as [[]|]; try done.
    by destruct (runSync _ _).
  - unfold resumeExec. destruct (promises w !! p) as [[]|]; try done.
    by destruct (runSync _ _).
  - done.
Qed.

Lemma run_providers (events : list Event) (w : World) :
  providers (run join events w) = providers w.
Proof.
  unfold run. revert w. induction events as [|e events IH]; intros w; simpl; [done|].
  rewrite IH. apply handle_providers.
Qed.

(** X13: what [activate] has registered stays as it is.  No event adds,
    removes or changes a watcher or a provider; the watcher keeps the
    [Snakefile] of the root there was at the activation, also when the
    workspace root is another one later. *)
Theorem registrations_are_fixed (w0 : World) (root0 : string) (events : list Event) :
  rootPath (host w0) = Some root0 → truthy root0 = true →
  let w := run join events (activate join w0) in
  watchers w = watchers w0 ++ [snakefileWatcher (join root0 "Snakefile")] ∧
  providers w = providers w0 ++ ["snakemake"] ∧
  taskProvider w = Some (length (providers w0)).
Proof.
  intros Hroot Htruthy. cbv zeta.
  destruct (run_registered join events (activate join w0)) as [-> ->].
  rewrite run_providers. unfold activate. by rewrite Hroot, Htruthy.
Qed.

(** With a listener for its kind, a notification empties the variable and
    that is all. *)
Lemma fsEvent_clears (kind : FsEventKind) (w : World) :
  concat (map (listeners kind) (watchers w)) ≠ [] →
  fsEvent kind w = setSnakemakePromise None w.
Proof.
  unfold fsEvent.
  generalize (concat (map (listeners kind) (watchers w))) as ls.
  intros [|[] ls] Hne; [done|]. simpl. clear Hne.
  induction ls as [|[] ls IH]; [done|]. simpl. exact IH.
Qed.

(** X14: after an activation with a root, notifications of any kinds, one
    or many in a row, all do the same: they empty the variable and touch
    nothing else. *)
Theorem notifications_are_alike (w0 : World) (root0 : string) (events : list Event)
    (kind : FsEventKind) (kinds : list FsEventKind) :
  rootPath (host w0) = Some root0 → truthy root0 = true →
  let w := run join events (activate join w0) in
  run join (map FsEvent (kind :: kinds)) w = setSnakemakePromise None w.
Proof.
  intros Hroot Htruthy. cbv zeta.
  assert (∀ k, concat (map (listeners k)
                 (watchers (run join events (activate join w0)))) ≠ []) as Hl
    by (intros k; by apply (activated_listens join w0 root0 events k)).
  set (w := run join events (activate join w0)) in *.
  assert (∀ ks w', watchers w' = watchers w →
            run join (map FsEvent ks) (setSnakemakePromise None w')
            = setSnakemakePromise None w') as Hmore.
  { intros ks. induction ks as [|k ks IH]; intros w' Hw; [done|].
    cbn [map run foldl handle]. rewrite fsEvent_clears by (simpl; rewrite Hw; apply Hl).
    change (setSnakemakePromise None (setSnakemakePromise None w'))
      with (setSnakemakePromise None w').
    by apply IH. }
  cbn [map run foldl handle]. rewrite fsEvent_clears by apply Hl.
  by apply Hmore.
Qed.

(** A notification takes at most one child process more into the budget. *)
Lemma handle_budget (e : Event) (w : World) :
  Forall passState (promises w) →
  invocationBudget (handle join e w)
  ≤ invocationBudget w + (if quiet e then 0 else 1).
Proof.
  intros Hall. destruct (quiet e) eqn:Hq.
  - pose proof (handle_quiet_budget join e w Hall Hq). lia.
  - destruct e as [|kind| | |]; try done. unfold handle, invocationBudget.
    destruct (fsEvent_fields kind w) as (-> & -> & _ & _ & [->| ->]);
      destruct (snakemakePromise w); lia.
Qed.

(** X15: the child processes are at most those of the budget and one for
    each notification, however many requests come: from a start without
    promises and child processes, at most one more than there were
    notifications. *)
Theorem invocations_bounded_by_notifications (events : list Event) (w : World) :
  Forall passState (promises w) →
  length (children (host (run join events w)))
  ≤ invocationBudget w + notifications events ∧
  (promises w = [] → children (host w) = [] →
   length (children (host (run join events w))) ≤ 1 + notifications events).
Proof.
  intros Hall.
  assert (invocationBudget (run join events w)
          ≤ invocationBudget w + notifications events) as Hb.
  { unfold run, notifications. revert w Hall.
    induction events as [|e events IH]; intros w Hall; simpl; [lia|].
    specialize (IH (handle join e w) (handle_passState join e w Hall)).
    pose proof (handle_budget e w Hall). destruct (quiet e); simpl in *; lia. }
  assert (length (children (host (run join events w)))
          ≤ invocationBudget (run join events w)) as Hc
    by (unfold invocationBudget; lia).
  split; [lia|]. intros Hp Hch.
  assert (invocationBudget w ≤ 1) as Hone.
  { unfold invocationBudget. rewrite Hp, Hch. simpl.
    destruct (snakemakePromise w); lia. }
  lia.
Qed.




End Registration.

(** ** Instances of the further properties *)

Lemma tasks_bounded_by_line_feeds_witness :
  length (split exampleStdout) = 4 ∧
  length (tasksOfStdout exampleStdout) ≤ 4 ∧
  ∀ tasks,
    fst (discover posixJoin true (succeeded exampleStdout "") (hostAt (Some "/w")))
    = Fulfilled tasks → length tasks ≤ 4.
Proof.
  destruct (tasks_bounded_by_line_feeds posixJoin exampleStdout) as (H1 & H2 & H3).
  split; [exact H1|]. split; [exact H2|].
  intros tasks.
  exact (H3 true (succeeded exampleStdout "") (hostAt (Some "/w")) tasks).
Defined.

Lemma task_kind_of_longer_name_witness :
  isBuildTask "build" = true ∧ isBuildTask "re" = false ∧
  isBuildTask ("re" +:+ "build" +:+ "_all") = true ∧
  isTestTask ("run_" +:+ "test" +:+ "s") = true.
Proof.
  split; [reflexivity|]. split; [reflexivity|].
  destruct (task_kind_of_longer_name "build" "re" "_all") as (H1 & _).
  destruct (task_kind_of_longer_name "test" "run_" "s") as (_ & H2 & _).
  split; [exact (H1 eq_refl) | exact (H2 eq_refl)].
Defined.

Lemma only_snakemake_list_is_run_witness :
  let w := run posixJoin
             [ProvideTasks; ExistsCallback 0 true; WorkspaceRoot (Some "/v");
              FsEvent Created; ProvideTasks; ExistsCallback 1 true]
             (activate posixJoin (worldAt (Some "/w"))) in
  children (host w) =
    [("snakemake --list", {| cwd := "/w" |}); ("snakemake --list", {| cwd := "/v" |})] ∧
  Forall (listingChild posixJoin (host w)) (children (host w)) ∧
  Forall (snakefileCheck posixJoin) (existsCalls (host w)).
Proof.
  split; [reflexivity|].
  apply (only_snakemake_list_is_run posixJoin
           [ProvideTasks; ExistsCallback 0 true; WorkspaceRoot (Some "/v");
            FsEvent Created; ProvideTasks; ExistsCallback 1 true]
           (activate posixJoin (worldAt (Some "/w")))); reflexivity.
Defined.

Lemma processes_checks_discoveries_witness :
  let w := run posixJoin
             [ProvideTasks; ExistsCallback 0 false; FsEvent Created;
              ProvideTasks; ExistsCallback 1 true; WorkspaceRoot None;
              FsEvent Deleted; ProvideTasks]
             (activate posixJoin (worldAt (Some "/w"))) in
  length (children (host w)) = 1 ∧ length (existsCalls (host w)) = 2 ∧
  length (promises w) = 3 ∧
  length (children (host w)) ≤ length (existsCalls (host w)) ∧
  length (existsCalls (host w)) ≤ length (promises w).
Proof.
  split; [reflexivity|]. split; [reflexivity|]. split; [reflexivity|].
  apply (processes_checks_discoveries posixJoin
           [ProvideTasks; ExistsCallback 0 false; FsEvent Created;
            ProvideTasks; ExistsCallback 1 true; WorkspaceRoot None;
            FsEvent Deleted; ProvideTasks]
           (activate posixJoin (worldAt (Some "/w")))); reflexivity.
Defined.

Lemma request_returns_live_promise_witness :
  let w' := run posixJoin
              [ProvideTasks; FsEvent Changed; ProvideTasks; ExistsCallback 1 false]
              (activate posixJoin (worldAt (Some "/w"))) in
  ∃ p st, fst (provideTasks posixJoin w') = Some p ∧
          promises (snd (provideTasks posixJoin w')) !! p = Some st ∧
          (inFlight st = true ∨ ∃ tasks, st = Fulfilled tasks).
Proof.
  apply (request_returns_live_promise posixJoin
           [ProvideTasks; FsEvent Changed; ProvideTasks; ExistsCallback 1 false]
           (activate posixJoin (worldAt (Some "/w")))); reflexivity.
Defined.

Lemma callbacks_fulfil_discovery_witness :
  let w := run posixJoin [ProvideTasks] (activate posixJoin (worldAt (Some "/w"))) in
  inFlight (default Stuck (promises w !! 0)) = true ∧
  ∃ tasks,
    promises (run posixJoin
                [ExistsCallback 0 true;
                 ExecCallback 0 (failed (SpawnFailure "ENOENT") "" "")] w) !! 0
    = Some (Fulfilled tasks).
Proof.
  split; [reflexivity|].
  eapply (callbacks_fulfil_discovery posixJoin
            (run posixJoin [ProvideTasks] (activate posixJoin (worldAt (Some "/w"))))
            0 _ true (failed (SpawnFailure "ENOENT") "" "")).
  - apply run_passState. constructor.
  - reflexivity.
Defined.

Lemma notifications_spare_discoveries_witness :
  let w := run posixJoin [ProvideTasks] (activate posixJoin (worldAt (Some "/w"))) in
  let events := [FsEvent Changed; ExistsCallback 0 true; FsEvent Deleted;
                 ExecCallback 0 (succeeded exampleStdout "")] in
  host (run posixJoin events w) =
    host (run posixJoin
            [ExistsCallback 0 true; ExecCallback 0 (succeeded exampleStdout "")] w) ∧
  promises (run posixJoin events w) =
    promises (run posixJoin
                [ExistsCallback 0 true; ExecCallback 0 (succeeded exampleStdout "")] w).
Proof.
  apply (notifications_spare_discoveries posixJoin
           [FsEvent Changed; ExistsCallback 0 true; FsEvent Deleted;
            ExecCallback 0 (succeeded exampleStdout "")]
           (run posixJoin [ProvideTasks] (activate posixJoin (worldAt (Some "/w"))))).
  reflexivity.
Defined.

Lemma dropped_discovery_completes_witness :
  let w := activate posixJoin (worldAt (Some "/w")) in
  let reply := succeeded exampleStdout "" in
  let w' := run posixJoin
              [FsEvent Changed; ExistsCallback 0 true; FsEvent Changed;
               ExecCallback 0 reply; FsEvent Deleted]
              (snd (provideTasks posixJoin w)) in
  snakemakePromise w' = None ∧
  promises w' !! 0 = Some (fst (discover posixJoin true reply (host w))) ∧
  host w' = snd (discover posixJoin true reply (host w)).
Proof.
  split; [reflexivity|].
  apply (dropped_discovery_completes posixJoin
           (activate posixJoin (worldAt (Some "/w"))) true
           (succeeded exampleStdout "") Changed Changed Deleted).
  reflexivity.
Defined.

Lemma registrations_are_fixed_witness :
  let w := run posixJoin
             [WorkspaceRoot (Some "/v"); ProvideTasks; FsEvent Changed]
             (activate posixJoin (worldAt (Some "/w"))) in
  rootPath (host w) = Some "/v" ∧
  existsCalls (host w) = ["/v/Snakefile"] ∧
  watchers w = [snakefileWatcher "/w/Snakefile"] ∧
  providers w = ["snakemake"] ∧ taskProvider w = Some 0.
Proof.
  split; [reflexivity|]. split; [reflexivity|].
  apply (registrations_are_fixed posixJoin (worldAt (Some "/w")) "/w"
           [WorkspaceRoot (Some "/v"); ProvideTasks; FsEvent Changed]);
    reflexivity.
Defined.

Lemma notifications_are_alike_witness :
  let w := run posixJoin [ProvideTasks] (activate posixJoin (worldAt (Some "/w"))) in
  snakemakePromise w = Some 0 ∧
  run posixJoin (map FsEvent [Deleted; Created; Changed]) w = setSnakemakePromise None w.
Proof.
  split; [reflexivity|].
  apply (notifications_are_alike posixJoin (worldAt (Some "/w")) "/w" [ProvideTasks]
           Deleted [Created; Changed]); reflexivity.
Defined.

Lemma invocations_bounded_by_notifications_witness :
  let events := [ProvideTasks; ExistsCallback 0 true; FsEvent Changed; ProvideTasks;
                 ProvideTasks; ExistsCallback 1 true; ProvideTasks] in
  let w := activate posixJoin (worldAt (Some "/w")) in
  notifications events = 1 ∧
  length (children (host (run posixJoin events w))) = 2 ∧
  length (children (host (run posixJoin events w))) ≤ 1 + notifications events.
Proof.
  split; [reflexivity|]. split; [reflexivity|].
  destruct (invocations_bounded_by_notifications posixJoin
              [ProvideTasks; ExistsCallback 0 true; FsEvent Changed; ProvideTasks;
               ProvideTasks; ExistsCallback 1 true; ProvideTasks]
              (activate posixJoin (worldAt (Some "/w")))) as [_ H].
  - constructor.
  - exact (H eq_refl eq_refl).
Defined.

